(** * jello: the query pipeline of [jello/lib.py]

    A shallow embedding of [pyquery] (lib.py, lines 246-345): the wrapping of
    the input document, the reading of the initialization file, the extraction
    and validation of the twelve options, the split of the script into leading
    statements and a final expression, their execution, and the conversion of
    the result back to plain data.

    [pyquery] hands the script to the Python interpreter ([ast.parse], [exec],
    [eval]).  The interpreter is embedded for a fragment of the language:
    constants, names, attribute and index access, list displays and
    single-generator list comprehensions; expression statements, assignments,
    [pass] and [if].  Whatever lies outside the fragment is reported by the
    outcome [Beyond], which is neither a value nor a Python exception: the
    embedding says nothing about such a run. *)

From Stdlib Require Import ZArith List String Ascii Bool Lia.
From Stdlib Require DecimalString.
Import ListNotations.

Local Open Scope string_scope.
Local Open Scope list_scope.
#[local] Set Warnings "-register-all".

(** ** Python values *)

(** The objects a query can hold.  [VDict] is a plain [dict] with string keys
    in insertion order, [VDotMap] the attribute-navigable wrapper built by
    [DotMap(...)], [VMethod self name] a bound method: the only objects of this
    model that carry a [__self__] attribute.  A float is kept as a pair
    mantissa/exponent; no operation of [pyquery] looks inside it. *)
Inductive value : Type :=
| VNone
| VBool (b : bool)
| VInt (z : Z)
| VFloat (m e : Z)
| VStr (s : string)
| VList (items : list value)
| VDict (entries : list (string * value))
| VDotMap (entries : list (string * value))
| VMethod (self : value) (name : string).

(** Induction over [value] that reaches inside lists and mappings. *)
Section ValueInd.
Variable P : value -> Prop.
Hypothesis HNone : P VNone.
Hypothesis HBool : forall b, P (VBool b).
Hypothesis HInt : forall z, P (VInt z).
Hypothesis HFloat : forall m e, P (VFloat m e).
Hypothesis HStr : forall s, P (VStr s).
Hypothesis HList : forall l, Forall P l -> P (VList l).
Hypothesis HDict : forall d, Forall (fun kv => P (snd kv)) d -> P (VDict d).
Hypothesis HDotMap : forall d, Forall (fun kv => P (snd kv)) d -> P (VDotMap d).
Hypothesis HMethod : forall self name, P self -> P (VMethod self name).

Fixpoint value_deep_ind (v : value) : P v :=
  match v with
  | VNone => HNone
  | VBool b => HBool b
  | VInt z => HInt z
  | VFloat m e => HFloat m e
  | VStr s => HStr s
  | VList l =>
      HList l ((fix items (l : list value) : Forall P l :=
                  match l with
                  | [] => Forall_nil _
                  | x :: l' => Forall_cons _ (value_deep_ind x) (items l')
                  end) l)
  | VDict d =>
      HDict d ((fix entries (d : list (string * value))
                  : Forall (fun kv => P (snd kv)) d :=
                  match d with
                  | [] => Forall_nil _
                  | (k, x) :: d' =>
                      Forall_cons (k, x) (value_deep_ind x) (entries d')
                  end) d)
  | VDotMap d =>
      HDotMap d ((fix entries (d : list (string * value))
                    : Forall (fun kv => P (snd kv)) d :=
                    match d with
                    | [] => Forall_nil _
                    | (k, x) :: d' =>
                        Forall_cons (k, x) (value_deep_ind x) (entries d')
                    end) d)
  | VMethod self name => HMethod self name (value_deep_ind self)
  end.
End ValueInd.

(** [isinstance(v, bool)] *)
Definition isinstance_bool (v : value) : bool :=
  match v with VBool _ => true | _ => false end.

(** [isinstance(v, DotMap)] *)
Definition isinstance_DotMap (v : value) : bool :=
  match v with VDotMap _ => true | _ => false end.

(** [hasattr(v, '__self__')] *)
Definition hasattr_self (v : value) : bool :=
  match v with VMethod _ _ => true | _ => false end.

(** [v is None] *)
Definition is_None (v : value) : bool :=
  match v with VNone => true | _ => false end.

(** Truth value of an object, as [if] takes it. *)
Definition truthy (v : value) : bool :=
  match v with
  | VNone => false
  | VBool b => b
  | VInt z => negb (Z.eqb z 0)
  | VFloat m _ => negb (Z.eqb m 0)
  | VStr s => negb (String.eqb s EmptyString)
  | VList l => negb (Nat.eqb (List.length l) 0)
  | VDict d | VDotMap d => negb (Nat.eqb (List.length d) 0)
  | VMethod _ _ => true
  end.

(** The scalars of the JSON domain. *)
Definition scalar (v : value) : bool :=
  match v with
  | VNone | VBool _ | VInt _ | VFloat _ _ | VStr _ => true
  | _ => false
  end.

(** The plain JSON domain: scalars, lists and dicts of plain values; no
    wrapper and no method anywhere. *)
Fixpoint plain (v : value) : bool :=
  match v with
  | VNone | VBool _ | VInt _ | VFloat _ _ | VStr _ => true
  | VList l => forallb plain l
  | VDict d => forallb (fun kv => match kv with (_, x) => plain x end) d
  | VDotMap _ | VMethod _ _ => false
  end.

(** First binding of a key in an association list. *)
Fixpoint lookup {A : Type} (k : string) (l : list (string * A)) : option A :=
  match l with
  | [] => None
  | (k', a) :: l' => if String.eqb k k' then Some a else lookup k l'
  end.

(** ** The adapter [jello.dotmap.DotMap] *)

(** Modelled from the spec: the constructor of [jello.dotmap.DotMap], whose
    module is not among the source files.  Section 4.1: the adapter wraps
    a mapping so that its fields are reachable as attributes, recursively;
    inside a sequence every element that is a mapping is wrapped
    independently and any other element, a sequence included, stays plain. *)
Fixpoint wrap_node (v : value) : value :=
  match v with
  | VDict d => VDotMap (map (fun kv => match kv with (k, x) => (k, wrap_node x) end) d)
  | VList l =>
      VList (map (fun i => match i with VDict _ => wrap_node i | _ => i end) l)
  | _ => v
  end.

(** Modelled from the spec: [DotMap(d, _dynamic=False,
    _prevent_method_masking=True)] applied to the entries of a dict. *)
Definition DotMap (d : list (string * value)) : value :=
  wrap_node (VDict d).

(** Modelled from the spec: the conversion behind [DotMap.toDict]
    (section 4.1, unwrap): a node, or a sequence possibly containing nodes, is
    converted back to plain values, recursively. *)
Fixpoint unwrap_node (v : value) : value :=
  match v with
  | VDotMap d => VDict (map (fun kv => match kv with (k, x) => (k, unwrap_node x) end) d)
  | VList l => VList (map unwrap_node l)
  | _ => v
  end.

(** Modelled from the spec: the method call [i.toDict()] on a wrapper. *)
Definition toDict (i : value) : value := unwrap_node i.

(** ** Syntax trees of the [ast] module *)

(** Values of an [ast.Constant] node. *)
Inductive constant : Type :=
| CNone
| CBool (b : bool)
| CInt (z : Z)
| CFloat (m e : Z)
| CStr (s : string).

(** Expression nodes; fields are named as in [ast].  [ListComp] has one
    generator with a name as target and no condition. *)
Inductive expr : Type :=
| Constant (value : constant)
| Name (id : string)
| Attribute (value : expr) (attr : string)
| Subscript (value : expr) (slice : expr)
| ListE (elts : list expr)
| ListComp (elt : expr) (target : string) (iter : expr).

(** Statement nodes.  [Expr] and [Assign] have a field [value]; [Pass] and
    [If] have none. *)
Inductive stmt : Type :=
| Expr (value : expr)
| Assign (targets : list expr) (value : expr)
| Pass
| If (test : expr) (body orelse : list stmt).

(** Induction over [stmt] that reaches inside the suites of [If]. *)
Section StmtInd.
Variable P : stmt -> Prop.
Hypothesis HExpr : forall e, P (Expr e).
Hypothesis HAssign : forall targets e, P (Assign targets e).
Hypothesis HPass : P Pass.
Hypothesis HIf : forall test body orelse,
  Forall P body -> Forall P orelse -> P (If test body orelse).

Fixpoint stmt_deep_ind (s : stmt) : P s :=
  match s with
  | Expr e => HExpr e
  | Assign targets e => HAssign targets e
  | Pass => HPass
  | If test body orelse =>
      HIf test body orelse
        ((fix suite (l : list stmt) : Forall P l :=
            match l with
            | [] => Forall_nil _
            | s' :: l' => Forall_cons _ (stmt_deep_ind s') (suite l')
            end) body)
        ((fix suite (l : list stmt) : Forall P l :=
            match l with
            | [] => Forall_nil _
            | s' :: l' => Forall_cons _ (stmt_deep_ind s') (suite l')
            end) orelse)
  end.
End StmtInd.

(** [isinstance(node, ast.Assign)] *)
Definition isinstance_Assign (s : stmt) : bool :=
  match s with Assign _ _ => true | _ => false end.

(** [isinstance(node, ast.Expr)]: the node is an expression statement. *)
Definition isinstance_Expr (s : stmt) : bool :=
  match s with Expr _ => true | _ => false end.

(** ** Outcomes and the machine *)

(** The exceptions [pyquery] can end with.  The two raised by [pyquery]
    itself carry their message. *)
Inductive exn : Type :=
| SyntaxError
| IndexError
| AttributeError
| KeyError (key : string)
| FileNotFoundError (msg : string)
| ValueError (msg : string).

(** A computation returns, raises, or leaves the embedded fragment. *)
Inductive outcome (A : Type) : Type :=
| Done (a : A)
| Raise (e : exn)
| Beyond.

Arguments Done {A} a.
Arguments Raise {A} e.
Arguments Beyond {A}.

Definition obind {A B : Type} (c : outcome A) (k : A -> outcome B) : outcome B :=
  match c with
  | Done a => k a
  | Raise e => Raise e
  | Beyond => Beyond
  end.

Declare Scope outcome_scope.
Delimit Scope outcome_scope with outcome.
Notation "x <~ c ;; k" := (obind c (fun x => k))
  (at level 100, c at next level, right associativity) : outcome_scope.

(** ** Expressions *)

Definition value_of_constant (c : constant) : value :=
  match c with
  | CNone => VNone
  | CBool b => VBool b
  | CInt z => VInt z
  | CFloat m e => VFloat m e
  | CStr s => VStr s
  end.

(** Names of a frame, innermost binding first. *)
Definition scope : Type := list (string * value).

Definition mem_string (s : string) (l : list string) : bool :=
  existsb (String.eqb s) l.

(** Modelled from the spec: attribute read on a wrapper (section 3 and 4.1,
    read).  [accessors] are the names the class [DotMap] defines itself (its
    reserved accessor names, declared in [jello/dotmap.py]); with
    [_prevent_method_masking=True] such a name yields the bound accessor, never
    the data stored under that key.  Any other name is looked up as a key and,
    with [_dynamic=False], a missing key is a lookup error.  Attributes of
    other objects are outside the fragment. *)
Definition getattr (accessors : list string) (v : value) (attr : string)
  : outcome value :=
  match v with
  | VDotMap d =>
      if mem_string attr accessors then Done (VMethod v attr)
      else match lookup attr d with
           | Some x => Done x
           | None => Raise (KeyError attr)
           end
  | _ => Beyond
  end.

(** [l[i]] on a list: indices count from the end when negative. *)
Definition list_item (l : list value) (i : Z) : outcome value :=
  let n := Z.of_nat (List.length l) in
  let j := if Z.ltb i 0 then (i + n)%Z else i in
  if Z.ltb j 0 || Z.leb n j then Raise IndexError
  else match nth_error l (Z.to_nat j) with
       | Some x => Done x
       | None => Raise IndexError
       end.

(** [v[i]]: key lookup in a dict or a wrapper (explicit key-indexing reaches
    the data whatever the key is called), position in a list. *)
Definition getitem (v i : value) : outcome value :=
  match v, i with
  | VDict d, VStr k | VDotMap d, VStr k =>
      match lookup k d with
      | Some x => Done x
      | None => Raise (KeyError k)
      end
  | VList l, VInt z => list_item l z
  | _, _ => Beyond
  end.

(** [eval] of an expression node in a frame.  A name the frame does not bind
    may be a global or a builtin of the interpreter: [Beyond].  The element of
    a comprehension runs in a scope of its own, in which only the target is
    known to the model. *)
Fixpoint eval (accessors : list string) (e : expr) (sc : scope) {struct e}
  : outcome value :=
  match e with
  | Constant c => Done (value_of_constant c)
  | Name id =>
      match lookup id sc with
      | Some v => Done v
      | None => Beyond
      end
  | Attribute e1 attr =>
      (v <~ eval accessors e1 sc ;; getattr accessors v attr)%outcome
  | Subscript e1 e2 =>
      (v <~ eval accessors e1 sc ;;
       i <~ eval accessors e2 sc ;;
       getitem v i)%outcome
  | ListE elts =>
      (vs <~ (fix each (es : list expr) : outcome (list value) :=
                match es with
                | [] => Done []
                | e1 :: es' =>
                    (v <~ eval accessors e1 sc ;;
                     vs <~ each es' ;;
                     Done (v :: vs))%outcome
                end) elts ;;
       Done (VList vs))%outcome
  | ListComp elt target iter =>
      (it <~ eval accessors iter sc ;;
       match it with
       | VList items =>
           (vs <~ (fix each (l : list value) : outcome (list value) :=
                     match l with
                     | [] => Done []
                     | i :: l' =>
                         (v <~ eval accessors elt [(target, i)] ;;
                          vs <~ each l' ;;
                          Done (v :: vs))%outcome
                     end) items ;;
            Done (VList vs))%outcome
       | _ => Beyond
       end)%outcome
  end.

(** ** Options *)

(** The attributes of [jello.options.opts] that [pyquery] reads or writes.
    An unset option holds [None]. *)
Record opts : Type := mkOpts {
  initialize : value;
  compact : value;
  raw : value;
  lines : value;
  nulls : value;
  mono : value;
  schema : value;
  keyname_color : value;
  keyword_color : value;
  number_color : value;
  string_color : value;
  arrayid_color : value;
  arraybracket_color : value
}.

Definition set_compact (v : value) (o : opts) : opts :=
  mkOpts (initialize o) v (raw o) (lines o) (nulls o) (mono o) (schema o)
    (keyname_color o) (keyword_color o) (number_color o) (string_color o)
    (arrayid_color o) (arraybracket_color o).

Definition set_raw (v : value) (o : opts) : opts :=
  mkOpts (initialize o) (compact o) v (lines o) (nulls o) (mono o) (schema o)
    (keyname_color o) (keyword_color o) (number_color o) (string_color o)
    (arrayid_color o) (arraybracket_color o).

Definition set_lines (v : value) (o : opts) : opts :=
  mkOpts (initialize o) (compact o) (raw o) v (nulls o) (mono o) (schema o)
    (keyname_color o) (keyword_color o) (number_color o) (string_color o)
    (arrayid_color o) (arraybracket_color o).

Definition set_nulls (v : value) (o : opts) : opts :=
  mkOpts (initialize o) (compact o) (raw o) (lines o) v (mono o) (schema o)
    (keyname_color o) (keyword_color o) (number_color o) (string_color o)
    (arrayid_color o) (arraybracket_color o).

Definition set_mono (v : value) (o : opts) : opts :=
  mkOpts (initialize o) (compact o) (raw o) (lines o) (nulls o) v (schema o)
    (keyname_color o) (keyword_color o) (number_color o) (string_color o)
    (arrayid_color o) (arraybracket_color o).

Definition set_schema (v : value) (o : opts) : opts :=
  mkOpts (initialize o) (compact o) (raw o) (lines o) (nulls o) (mono o) v
    (keyname_color o) (keyword_color o) (number_color o) (string_color o)
    (arrayid_color o) (arraybracket_color o).

Definition set_keyname_color (v : value) (o : opts) : opts :=
  mkOpts (initialize o) (compact o) (raw o) (lines o) (nulls o) (mono o)
    (schema o) v (keyword_color o) (number_color o) (string_color o)
    (arrayid_color o) (arraybracket_color o).

Definition set_keyword_color (v : value) (o : opts) : opts :=
  mkOpts (initialize o) (compact o) (raw o) (lines o) (nulls o) (mono o)
    (schema o) (keyname_color o) v (number_color o) (string_color o)
    (arrayid_color o) (arraybracket_color o).

Definition set_number_color (v : value) (o : opts) : opts :=
  mkOpts (initialize o) (compact o) (raw o) (lines o) (nulls o) (mono o)
    (schema o) (keyname_color o) (keyword_color o) v (string_color o)
    (arrayid_color o) (arraybracket_color o).

Definition set_string_color (v : value) (o : opts) : opts :=
  mkOpts (initialize o) (compact o) (raw o) (lines o) (nulls o) (mono o)
    (schema o) (keyname_color o) (keyword_color o) (number_color o) v
    (arrayid_color o) (arraybracket_color o).

Definition set_arrayid_color (v : value) (o : opts) : opts :=
  mkOpts (initialize o) (compact o) (raw o) (lines o) (nulls o) (mono o)
    (schema o) (keyname_color o) (keyword_color o) (number_color o)
    (string_color o) v (arraybracket_color o).

Definition set_arraybracket_color (v : value) (o : opts) : opts :=
  mkOpts (initialize o) (compact o) (raw o) (lines o) (nulls o) (mono o)
    (schema o) (keyname_color o) (keyword_color o) (number_color o)
    (string_color o) (arrayid_color o) v.

(** Line 310:
    [opts.compact = opts.raw = opts.lines = opts.nulls = opts.mono = opts.schema = None] *)
Definition unset_options (o : opts) : opts :=
  mkOpts (initialize o) VNone VNone VNone VNone VNone VNone
    (keyname_color o) (keyword_color o) (number_color o) (string_color o)
    (arrayid_color o) (arraybracket_color o).

(** Line 318: the six colour slots are set to [None]. *)
Definition unset_colors (o : opts) : opts :=
  mkOpts (initialize o) (compact o) (raw o) (lines o) (nulls o) (mono o)
    (schema o) VNone VNone VNone VNone VNone VNone.

(** The list of line 308. *)
Definition option_values (o : opts) : list value :=
  [compact o; raw o; lines o; nulls o; mono o; schema o].

(** The list of lines 313-314. *)
Definition color_values (o : opts) : list value :=
  [keyname_color o; keyword_color o; number_color o;
   string_color o; arrayid_color o; arraybracket_color o].

(** Lines 315-316. *)
Definition valid_colors : list string :=
  ["black"; "red"; "green"; "yellow"; "blue"; "magenta"; "cyan"; "gray";
   "brightblack"; "brightred"; "brightgreen"; "brightyellow"; "brightblue";
   "brightmagenta"; "brightcyan"; "white"].

(** [v in valid_colors]: only a string can equal an element of the list. *)
Definition in_valid_colors (v : value) : bool :=
  match v with
  | VStr s => mem_string s valid_colors
  | _ => false
  end.

(** The test of line 309. *)
Definition bad_option (option : value) : bool :=
  negb (isinstance_bool option).

(** The test of line 317:
    [color_config not in valid_colors and color_config is not None]. *)
Definition bad_color (color_config : value) : bool :=
  negb (in_valid_colors color_config) && negb (is_None color_config).

(** Lines 308-311.  The loop runs over the list built before its first
    iteration; its state is [opts] and the flag [warn_options]. *)
Definition check_options (o : opts) : opts * bool :=
  fold_left
    (fun (st : opts * bool) (option : value) =>
       if bad_option option then (unset_options (fst st), true) else st)
    (option_values o) (o, false).

(** Lines 313-319, with the flag [warn_colors]. *)
Definition check_colors (o : opts) : opts * bool :=
  fold_left
    (fun (st : opts * bool) (color_config : value) =>
       if bad_color color_config then (unset_colors (fst st), true) else st)
    (color_values o) (o, false).

(** ** Text *)

Definition LF : string := String (ascii_of_nat 10) EmptyString.

(** [sep.join(l)] *)
Fixpoint join (sep : string) (l : list string) : string :=
  match l with
  | [] => EmptyString
  | [s] => s
  | s :: l' => s ++ sep ++ join sep l'
  end.

(** The argument of [print] at line 322. *)
Definition options_warning (conf_file : string) : string :=
  "Jello:   Warning: Options must be set to True or False in " ++ conf_file
  ++ LF ++ "         Unsetting all options." ++ LF.

(** The argument of [print] at line 326. *)
Definition colors_warning (conf_file : string) : string :=
  "Jello:   Warning: Colors must be set to one of: "
  ++ join ", " valid_colors ++ " in " ++ conf_file
  ++ LF ++ "         Unsetting all colors." ++ LF.

(** [s.startswith(p)] *)
Definition startswith (s p : string) : bool := String.prefix p s.

(** ** The machine: options, standard output and the statements run *)

(** What a call of [pyquery] can change outside its frame: the attributes of
    [opts] and the text printed.  [m_ran] is the log of the statements that
    [exec] has started, in order. *)
Record machine : Type := mkMachine {
  m_opts : opts;
  m_stdout : list string;
  m_ran : list stmt
}.

(** A step of [pyquery]: its outcome and the machine it leaves, which is kept
    when the step raises. *)
Definition M (A : Type) : Type := machine -> outcome A * machine.

Definition ret {A : Type} (a : A) : M A := fun m => (Done a, m).

Definition bind {A B : Type} (c : M A) (k : A -> M B) : M B :=
  fun m =>
    match c m with
    | (Done a, m') => k a m'
    | (Raise e, m') => (Raise e, m')
    | (Beyond, m') => (Beyond, m')
    end.

Definition lift {A : Type} (c : outcome A) : M A := fun m => (c, m).

Definition get_opts : M opts := fun m => (Done (m_opts m), m).

Definition modify_opts (f : opts -> opts) : M unit :=
  fun m => (Done tt, mkMachine (f (m_opts m)) (m_stdout m) (m_ran m)).

(** [print(s)] *)
Definition print (s : string) : M unit :=
  fun m => (Done tt, mkMachine (m_opts m) (m_stdout m ++ [s]) (m_ran m)).

(** [exec] starts on statement [s]. *)
Definition tick (s : stmt) : M unit :=
  fun m => (Done tt, mkMachine (m_opts m) (m_stdout m) (m_ran m ++ [s])).

Declare Scope machine_scope.
Delimit Scope machine_scope with machine.
Notation "x <- c ;; k" := (bind c (fun x => k))
  (at level 100, c at next level, right associativity) : machine_scope.
Notation "' pat <- c ;; k" :=
  (bind c (fun x => match x with pat => k end))
  (at level 100, pat pattern, c at next level, right associativity)
  : machine_scope.
Notation "c ;; k" := (bind c (fun _ => k))
  (at level 100, right associativity) : machine_scope.

(** [for x in l: body], the loop state threaded through the iterations. *)
Fixpoint for_each {A : Type} (l : list A) (body : A -> M unit) : M unit :=
  match l with
  | [] => ret tt
  | x :: l' => (body x ;; for_each l' body)%machine
  end.

(** ** Statements *)

(** The local variables of [pyquery].  [exec] and [eval] run in its frame. *)
Definition frame_locals : list string :=
  ["data"; "query"; "_"; "jelloconf"; "conf_file"; "f"; "output"; "expr";
   "warn_options"; "warn_colors"; "option"; "color_config"; "valid_colors";
   "valid_colors_string"; "block"; "last"].

(** Assignment to one target.  A new name is bound in the frame.  Storing
    into an attribute or an item changes an object in place, and a name of
    [frame_locals] is restored from the variable of [pyquery] when the frame
    is read again: both are outside the fragment. *)
Definition store (target : expr) (v : value) (sc : scope) : outcome scope :=
  match target with
  | Name id => if mem_string id frame_locals then Beyond else Done ((id, v) :: sc)
  | _ => Beyond
  end.

Fixpoint store_all (targets : list expr) (v : value) (sc : scope)
  : outcome scope :=
  match targets with
  | [] => Done sc
  | t :: ts => (sc' <~ store t v sc ;; store_all ts v sc')%outcome
  end.

(** Execution of one statement in a frame. *)
Fixpoint exec_stmt (accessors : list string) (s : stmt) (sc : scope)
  {struct s} : M scope :=
  (tick s ;;
   match s with
   | Expr e =>
       _ <- lift (eval accessors e sc) ;; ret sc
   | Assign targets e =>
       v <- lift (eval accessors e sc) ;; lift (store_all targets v sc)
   | Pass => ret sc
   | If test body orelse =>
       c <- lift (eval accessors test sc) ;;
       (fix suite (ss : list stmt) (sc : scope) : M scope :=
          match ss with
          | [] => ret sc
          | s' :: ss' =>
              sc' <- exec_stmt accessors s' sc ;; suite ss' sc'
          end) (if truthy c then body else orelse) sc
   end)%machine.

(** [exec(compile(block, '<string>', mode='exec'))] *)
Fixpoint exec_block (accessors : list string) (block : list stmt) (sc : scope)
  : M scope :=
  match block with
  | [] => ret sc
  | s :: block' =>
      (sc' <- exec_stmt accessors s sc ;; exec_block accessors block' sc')%machine
  end.

(** ** The host *)

(** Modelled from the spec: the field [accessors], the attribute names that
    the class [DotMap] of [jello/dotmap.py] reserves for itself (section 3: the
    names that collide with a built-in accessor); that module is not among the
    source files.  The other fields are what [pyquery] obtains from outside
    the repository: the platform, the environment, the file system and the
    parser.  [read_text p] is the text of the file at [p], [None] when [open]
    raises [FileNotFoundError]; [ast_parse s] is the list [ast.parse(s).body],
    [None] when the text is not valid Python. *)
Record host : Type := mkHost {
  sys_platform : string;
  os_environ : list (string * string);
  os_path_join : string -> string -> string;
  read_text : string -> option string;
  ast_parse : string -> option (list stmt);
  accessors : list string
}.

(** [os.environ[k]] *)
Definition environ (h : host) (k : string) : outcome string :=
  match lookup k (os_environ h) with
  | Some v => Done v
  | None => Raise (KeyError k)
  end.

(** [ast.parse(s).body] *)
Definition parse (h : host) (s : string) : outcome (list stmt) :=
  match ast_parse h s with
  | Some body => Done body
  | None => Raise SyntaxError
  end.

(** ** [pyquery] *)

(** Lines 248-256: the value bound to [_]. *)
Definition wrap_input (data : value) : value :=
  match data with
  | VList l =>
      VList (map (fun i => match i with VDict d => DotMap d | _ => i end) l)
  | VDict d => DotMap d
  | _ => data
  end.

(** Lines 258-271: the text and the path of the initialization file. *)
Definition load_conf (h : host) : M (string * string) :=
  (o <- get_opts ;;
   if truthy (initialize o) then
     dir <- lift (if startswith (sys_platform h) "win32"
                  then environ h "APPDATA"
                  else environ h "HOME") ;;
     let conf_file := os_path_join h dir ".jelloconf.py" in
     match read_text h conf_file with
     | Some text => ret (text, conf_file)
     | None =>
         lift (Raise (FileNotFoundError
                 ("-i used and initialization file not found: " ++ conf_file)))
     end
   else ret (EmptyString, EmptyString))%machine.

(** The frame of [pyquery] when the script is reached: its variables that
    hold data. *)
Definition frame (data u : value) (query jelloconf conf_file : string) : scope :=
  [("data", data); ("query", VStr query); ("_", u);
   ("jelloconf", VStr jelloconf); ("conf_file", VStr conf_file);
   ("output", VNone)].

(** [expr.targets[0].id] *)
Definition target_id (targets : list expr) : outcome string :=
  match targets with
  | [] => Raise IndexError
  | Name id :: _ => Done id
  | _ :: _ => Raise AttributeError
  end.

(** One of the twelve tests of lines 279-302:
    [if expr.targets[0].id == name: opts.name = eval(compile(ast.Expression(expr.value), ...))] *)
Definition extract (h : host) (sc : scope) (targets : list expr) (rhs : expr)
    (name : string) (set : value -> opts -> opts) : M unit :=
  (id <- lift (target_id targets) ;;
   if String.eqb id name then
     v <- lift (eval (accessors h) rhs sc) ;; modify_opts (set v)
   else ret tt)%machine.

(** Lines 304-326: one validation of the options. *)
Definition validate (conf_file : string) : M unit :=
  (o <- get_opts ;;
   let (o1, warn_options) := check_options o in
   modify_opts (fun _ => o1) ;;
   o <- get_opts ;;
   let (o2, warn_colors) := check_colors o in
   modify_opts (fun _ => o2) ;;
   (if warn_options then print (options_warning conf_file) else ret tt) ;;
   (if warn_colors then print (colors_warning conf_file) else ret tt))%machine.

(** The body of the loop of line 277, lines 278-326. *)
Definition prelude_step (h : host) (sc : scope) (conf_file : string) (s : stmt)
  : M unit :=
  match s with
  | Assign targets rhs =>
      (extract h sc targets rhs "compact" set_compact ;;
       extract h sc targets rhs "raw" set_raw ;;
       extract h sc targets rhs "lines" set_lines ;;
       extract h sc targets rhs "nulls" set_nulls ;;
       extract h sc targets rhs "mono" set_mono ;;
       extract h sc targets rhs "schema" set_schema ;;
       extract h sc targets rhs "keyname_color" set_keyname_color ;;
       extract h sc targets rhs "keyword_color" set_keyword_color ;;
       extract h sc targets rhs "number_color" set_number_color ;;
       extract h sc targets rhs "string_color" set_string_color ;;
       extract h sc targets rhs "arrayid_color" set_arrayid_color ;;
       extract h sc targets rhs "arraybracket_color" set_arraybracket_color ;;
       validate conf_file)%machine
  | _ => ret tt
  end.

(** Lines 247-326: everything before the query is run.  Returns the script
    (initialization text followed by the query) and the frame. *)
Definition setup (h : host) (data : value) (query : string)
  : M (string * scope) :=
  (let u := wrap_input data in
   ' (jelloconf, conf_file) <- load_conf h ;;
   let query := (jelloconf ++ query)%string in
   let sc := frame data u query jelloconf conf_file in
   body <- lift (parse h jelloconf) ;;
   for_each body (prelude_step h sc conf_file) ;;
   ret (query, sc))%machine.

(** [l.pop()]: the list without its last element, and that element. *)
Fixpoint pop {A : Type} (l : list A) : outcome (list A * A) :=
  match l with
  | [] => Raise IndexError
  | x :: l' =>
      match l' with
      | [] => Done ([], x)
      | _ :: _ =>
          match pop l' with
          | Done (r, y) => Done (x :: r, y)
          | Raise e => Raise e
          | Beyond => Beyond
          end
      end
  end.

(** [node.value] *)
Definition node_value (s : stmt) : outcome expr :=
  match s with
  | Expr value | Assign _ value => Done value
  | Pass | If _ _ _ => Raise AttributeError
  end.

(** Lines 329-332: the split of the script and its execution. *)
Definition run_query (h : host) (query : string) (sc : scope) : M value :=
  (block <- lift (parse h query) ;;
   ' (block, node) <- lift (pop block) ;;
   last <- lift (node_value node) ;;
   sc' <- exec_block (accessors h) block sc ;;
   lift (eval (accessors h) last sc'))%machine.

(** Line 343. *)
Definition reserved_key_message : string :=
  "Reserved key name. Use bracket notation to access this key.".

(** Line 336: the element of the list comprehension. *)
Definition plain_item (i : value) : value :=
  if isinstance_DotMap i then toDict i else i.

(** Lines 334-345: the conversion of the result. *)
Definition normalize (output : value) : outcome value :=
  let output :=
    match output with
    | VList l => VList (map plain_item l)
    | VDotMap _ => toDict output
    | _ => output
    end in
  if hasattr_self output then Raise (ValueError reserved_key_message)
  else Done output.

(** [pyquery(data, query)], lines 246-345. *)
Definition pyquery (h : host) (data : value) (query : string) : M value :=
  (' (script, sc) <- setup h data query ;;
   output <- run_query h script sc ;;
   lift (normalize output))%machine.

(** ** Concrete hosts *)

(** A host given by tables: a POSIX machine whose home directory is
    [/home/user], with the listed files and, for the parser, the listed
    source texts with their statement lists; every other text is rejected.
    The one accessor name is [toDict], the method [pyquery] calls at lines 336
    and 339. *)
Definition table_host (files : list (string * string))
    (sources : list (string * list stmt)) : host :=
  mkHost "linux" [("HOME", "/home/user")]
    (fun dir name => (dir ++ "/" ++ name)%string)
    (fun path => lookup path files)
    (fun text => lookup text sources)
    ["toDict"].

(** No option set. *)
Definition opts_unset : opts :=
  mkOpts VNone VNone VNone VNone VNone VNone VNone
    VNone VNone VNone VNone VNone VNone.

(** The options after [jello -i ...]: only [initialize] is set. *)
Definition opts_initialize : opts :=
  mkOpts (VBool true) VNone VNone VNone VNone VNone VNone
    VNone VNone VNone VNone VNone VNone.

(** [initialize] is set and the six flags are [False]. *)
Definition opts_flags_off : opts :=
  mkOpts (VBool true) (VBool false) (VBool false) (VBool false) (VBool false)
    (VBool false) (VBool false) VNone VNone VNone VNone VNone VNone.

(** A machine that has printed nothing and run nothing. *)
Definition machine_of (o : opts) : machine := mkMachine o [] [].

(** The path of the initialization file on a table host. *)
Definition conf_path : string := "/home/user/.jelloconf.py".

(** The scripts of the examples, with their parse. *)
Definition demo_sources : list (string * list stmt) :=
  [(EmptyString, []);
   ("_", [Expr (Name "_")]);
   ("x = 1", [Assign [Name "x"] (Constant (CInt 1))]);
   ("pass", [Pass]);
   ("_.b.c", [Expr (Attribute (Attribute (Name "_") "b") "c")]);
   ("_.toDict", [Expr (Attribute (Name "_") "toDict")]);
   ("_['toDict']", [Expr (Subscript (Name "_") (Constant (CStr "toDict")))]);
   ("[_.toDict]", [Expr (ListE [Attribute (Name "_") "toDict"])]);
   ("[i.x for i in _]",
    [Expr (ListComp (Attribute (Name "i") "x") "i" (Name "_"))])].

(** A host without initialization file. *)
Definition demo_host : host := table_host [] demo_sources.

(** A host whose initialization file holds [conf], a text that ends in a
    newline, parsed as [body]; the only query it knows is [_], which line 273
    puts right after that newline. *)
Definition conf_host (conf : string) (body : list stmt) : host :=
  table_host [(conf_path, conf)]
    [(conf, body); ((conf ++ "_")%string, body ++ [Expr (Name "_")])].

(** ** Auxiliary notions *)

(** A step that leaves the log of executed statements alone. *)
Definition keeps_ran {A : Type} (c : M A) : Prop :=
  forall m, m_ran (snd (c m)) = m_ran m.

(** What the validation prints. *)
Definition warnings (conf_file : string) (warn_options warn_colors : bool)
  : list string :=
  (if warn_options then [options_warning conf_file] else [])
  ++ (if warn_colors then [colors_warning conf_file] else []).

(** A statement leaves a variable [x] of [pyquery] as it found it. *)
Definition keeps_local (accessors : list string) (x : string) (s : stmt) : Prop :=
  forall sc m sc' m',
    exec_stmt accessors s sc m = (Done sc', m') -> lookup x sc' = lookup x sc.

(** ** The twelve options of the initialization file *)

(** The names tested at lines 279-301, each with the attribute of [opts] that
    the matching line assigns. *)
Definition option_setters : list (string * (value -> opts -> opts)) :=
  [("compact", set_compact); ("raw", set_raw); ("lines", set_lines);
   ("nulls", set_nulls); ("mono", set_mono); ("schema", set_schema);
   ("keyname_color", set_keyname_color); ("keyword_color", set_keyword_color);
   ("number_color", set_number_color); ("string_color", set_string_color);
   ("arrayid_color", set_arrayid_color);
   ("arraybracket_color", set_arraybracket_color)].

Definition option_names : list string := map fst option_setters.

(** A step that leaves the options and the standard output alone. *)
Definition keeps_options {A : Type} (c : M A) : Prop :=
  forall m,
    m_opts (snd (c m)) = m_opts m /\ m_stdout (snd (c m)) = m_stdout m.

(** ** Colours: [color_map] and [set_env_colors] *)

(** The character written [\33] in lib.py. *)
Definition ESC : string := String (ascii_of_nat 27) EmptyString.

(** Lines 14-31. *)
Definition color_map : list (string * (string * string)) :=
  [("black", ("ansiblack", (ESC ++ "[30m")%string));
   ("red", ("ansired", (ESC ++ "[31m")%string));
   ("green", ("ansigreen", (ESC ++ "[32m")%string));
   ("yellow", ("ansiyellow", (ESC ++ "[33m")%string));
   ("blue", ("ansiblue", (ESC ++ "[34m")%string));
   ("magenta", ("ansimagenta", (ESC ++ "[35m")%string));
   ("cyan", ("ansicyan", (ESC ++ "[36m")%string));
   ("gray", ("ansigray", (ESC ++ "[37m")%string));
   ("brightblack", ("ansibrightblack", (ESC ++ "[90m")%string));
   ("brightred", ("ansibrightred", (ESC ++ "[91m")%string));
   ("brightgreen", ("ansibrightgreen", (ESC ++ "[92m")%string));
   ("brightyellow", ("ansibrightyellow", (ESC ++ "[93m")%string));
   ("brightblue", ("ansibrightblue", (ESC ++ "[94m")%string));
   ("brightmagenta", ("ansibrightmagenta", (ESC ++ "[95m")%string));
   ("brightcyan", ("ansibrightcyan", (ESC ++ "[96m")%string));
   ("white", ("ansiwhite", (ESC ++ "[97m")%string))].

(** [color_map[k]] for a string [k]. *)
Definition color_map_item (k : string) : outcome (string * string) :=
  match lookup k color_map with
  | Some entry => Done entry
  | None => Raise (KeyError k)
  end.

(** The list of lines 67-68. *)
Definition env_color_names : list string :=
  ["black"; "red"; "green"; "yellow"; "blue"; "magenta"; "cyan"; "gray";
   "brightblack"; "brightred"; "brightgreen"; "brightyellow"; "brightblue";
   "brightmagenta"; "brightcyan"; "white"; "default"].

(** [s.split(',')] *)
Fixpoint split_comma (s : string) : list string :=
  match s with
  | EmptyString => [EmptyString]
  | String c rest =>
      if Ascii.eqb c ","%char then EmptyString :: split_comma rest
      else match split_comma rest with
           | [] => [String c EmptyString]
           | field :: fields => String c field :: fields
           end
  end.

(** Lines 71 and 76. *)
Definition default_color_list : list string :=
  ["default"; "default"; "default"; "default"; "default"; "default"].

(** The argument of [print] at line 75, written to the standard error. *)
Definition env_colors_warning : string :=
  ("jello:   Warning: could not parse JELLO_COLORS environment variable"
   ++ LF)%string.

(** Lines 56-76: [color_list] when the dictionary of line 80 is built, and
    what has been printed to the standard error.  [env_colors] is the result
    of [os.getenv('JELLO_COLORS')], [None] when the variable is not set. *)
Definition env_color_list (env_colors : option string)
  : list string * list string :=
  match env_colors with
  | Some s =>
      if negb (String.eqb s EmptyString) then
        let color_list := split_comma s in
        let input_error := negb (Nat.eqb (List.length color_list) 6) in
        let input_error :=
          fold_left
            (fun (input_error : bool) (color : string) =>
               if negb (mem_string color env_color_names) then true
               else input_error)
            color_list input_error in
        if input_error then (default_color_list, [env_colors_warning])
        else (color_list, [])
      else (default_color_list, [])
  | None => (default_color_list, [])
  end.

(** One value of the dictionary of lines 80-87:
    [color_map[color_list[i]] if not color_list[i] == 'default'
     else color_map[option] if option else color_map[fallback]].
    An option that is true and not a string is looked up under a key that is
    not a string: outside the fragment. *)
Definition theme_color (color_list : list string) (i : nat) (option : value)
    (fallback : string) : outcome (string * string) :=
  match nth_error color_list i with
  | None => Raise IndexError
  | Some color =>
      if negb (String.eqb color "default") then color_map_item color
      else if truthy option then
             match option with
             | VStr s => color_map_item s
             | _ => Beyond
             end
           else color_map_item fallback
  end.

(** [set_env_colors()], lines 34-87: what is printed to the standard error
    and the dictionary assigned to [JelloTheme.colors]. *)
Definition set_env_colors (env_colors : option string) (o : opts)
  : list string * outcome (list (string * (string * string))) :=
  let (color_list, stderr) := env_color_list env_colors in
  (stderr,
   (key_name <~ theme_color color_list 0 (keyname_color o) "blue" ;;
    keyword <~ theme_color color_list 1 (keyword_color o) "brightblack" ;;
    number <~ theme_color color_list 2 (number_color o) "magenta" ;;
    str <~ theme_color color_list 3 (string_color o) "green" ;;
    array_id <~ theme_color color_list 4 (arrayid_color o) "red" ;;
    array_bracket <~
      theme_color color_list 5 (arraybracket_color o) "magenta" ;;
    Done [("key_name", key_name); ("keyword", keyword); ("number", number);
          ("string", str); ("array_id", array_id);
          ("array_bracket", array_bracket)])%outcome).

(** The colour name a slot ends up with: the name of the environment unless
    it is [default], else the option when it holds a name, else the built-in
    colour. *)
Definition effective_color (color : string) (option : value)
    (fallback : string) : string :=
  if negb (String.eqb color "default") then color
  else match option with
       | VStr s => s
       | _ => fallback
       end.

(** ** The modules [json] and [str] *)

(** The ways lib.py calls [json.dumps].  With [ensure_ascii=False]: with
    [indent=2] (lines 182 and 186, by default), with [separators=(',', ':')]
    (the same lines under [-c] or [-l], and line 209), and with neither (lines
    149, 160 and 229).  With no keyword argument at all: line 241. *)
Inductive dump_style : Type :=
| Indented
| Compact
| Plain
| Bare.

(** What the functions below obtain from the Python library.
    [json_dumps style v] is the text [json.dumps] returns, [None] when it
    raises (a [TypeError] for an object that is not serializable, a
    [ValueError] for a circular reference or a number it refuses);
    [json_loads s] is
    the value [json.loads] returns, [None] when it raises; [str_rstrip],
    [str_splitlines] and [py_str] are [s.rstrip()], [s.splitlines()] and the
    text [f'{v}'] of an object. *)
Record library : Type := mkLibrary {
  json_dumps : dump_style -> value -> option string;
  json_loads : string -> option value;
  str_rstrip : string -> string;
  str_splitlines : string -> list string;
  py_str : value -> string
}.

(** The exceptions of the functions that read and print: the [TypeError] of
    line 243, [DumpsError] for whatever exception [json.dumps] has raised,
    [JSONDecodeError] (from [json.loads]), and those of [exn]. *)
Inductive output_exn : Type :=
| TypeError
| DumpsError
| JSONDecodeError
| Exn (e : exn).

(** A result of these functions: returned, raised, or outside the embedded
    fragment (a wrapper [DotMap] handed to a test [isinstance(x, dict)], which
    the class decides). *)
Inductive output (A : Type) : Type :=
| Out (a : A)
| Fails (e : output_exn)
| Unknown.

Arguments Out {A} a.
Arguments Fails {A} e.
Arguments Unknown {A}.

Definition output_bind {A B : Type} (c : output A) (k : A -> output B)
  : output B :=
  match c with
  | Out a => k a
  | Fails e => Fails e
  | Unknown => Unknown
  end.

Declare Scope output_scope.
Delimit Scope output_scope with output.
Notation "x <~~ c ;; k" := (output_bind c (fun x => k))
  (at level 100, c at next level, right associativity) : output_scope.

(** [json.dumps(v, ...)] *)
Definition dumps (lib : library) (style : dump_style) (v : value)
  : output string :=
  match json_dumps lib style v with
  | Some text => Out text
  | None => Fails DumpsError
  end.

(** [isinstance(v, list)] *)
Definition isinstance_list (v : value) : bool :=
  match v with VList _ => true | _ => false end.

(** ** [load_json] *)

(** Line 95: [[json.loads(i) for i in data.splitlines()]] *)
Fixpoint loads_each (lib : library) (rows : list string) : output (list value) :=
  match rows with
  | [] => Out []
  | i :: rows' =>
      match json_loads lib i with
      | Some v => (vs <~~ loads_each lib rows' ;; Out (v :: vs))%output
      | None => Fails JSONDecodeError
      end
  end.

(** [load_json(data)], lines 90-97. *)
Definition load_json (lib : library) (data : string) : output value :=
  match json_loads lib data with
  | Some json_dict => Out json_dict
  | None =>
      (json_dict <~~ loads_each lib (str_splitlines lib data) ;;
       Out (VList json_dict))%output
  end.

(** ** [create_json] *)

(** Lines 174-179: the separators and the indentation. *)
Definition dump_style_of (o : opts) : dump_style :=
  if truthy (compact o) || truthy (lines o) then Compact else Indented.

Definition LFchar : ascii := ascii_of_nat 10.

(** [s.replace('\n', '\\n')] *)
Fixpoint escape_newlines (s : string) : string :=
  match s with
  | EmptyString => EmptyString
  | String c rest =>
      if Ascii.eqb c LFchar
      then String "\"%char (String "n"%char (escape_newlines rest))
      else String c (escape_newlines rest)
  end.

(** The double quote. *)
Definition quote : string := String (ascii_of_nat 34) EmptyString.

(** Lines 213-217 and 233-237: a string as it is printed, without its
    final newline. *)
Definition show_str (o : opts) (s : string) : string :=
  let s := escape_newlines s in
  if truthy (raw o) then s else (quote ++ s ++ quote)%string.

(** Lines 202-217: what one entry adds to [flat_list].  An entry that is
    none of [None], [dict], [bool], [int], [float], [str] meets no branch and
    adds nothing. *)
Definition entry_line (lib : library) (o : opts) (entry : value)
  : output string :=
  match entry with
  | VNone => Out (if truthy (nulls o) then ("null" ++ LF)%string else LF)
  | VDict _ | VBool _ | VInt _ | VFloat _ _ =>
      (text <~~ dumps lib Compact entry ;; Out (text ++ LF)%string)%output
  | VStr s => Out (show_str o s ++ LF)%string
  | VDotMap _ => Unknown
  | VList _ | VMethod _ _ => Out EmptyString
  end.

(** The loop of lines 201-217. *)
Fixpoint flat_lines (lib : library) (o : opts) (data : list value)
    (flat_list : string) : output string :=
  match data with
  | [] => Out flat_list
  | entry :: data' =>
      (line <~~ entry_line lib o entry ;;
       flat_lines lib o data' (flat_list ++ line))%output
  end.

(** Line 196. *)
Definition list_of_lists_message : string :=
  "Cannot print list of lists as lines. Try normal JSON output.".

(** [create_json(data)], lines 173-243. *)
Definition create_json (lib : library) (o : opts) (data : value)
  : output string :=
  match data with
  | VDict _ => dumps lib (dump_style_of o) data
  | VList items =>
      if negb (truthy (lines o)) then dumps lib (dump_style_of o) data
      else
        let list_includes_list := existsb isinstance_list items in
        if truthy (lines o) && list_includes_list
        then Fails (Exn (ValueError list_of_lists_message))
        else (flat_list <~~ flat_lines lib o items EmptyString ;;
              Out (str_rstrip lib flat_list))%output
  | VNone => Out (if truthy (nulls o) then "null" else EmptyString)
  | VBool _ | VInt _ | VFloat _ _ => dumps lib Plain data
  | VStr s => Out (show_str o s)
  | VMethod _ _ =>
      (_ <~~ dumps lib Bare data ;; Fails TypeError)%output
  | VDotMap _ => Unknown
  end.

(** The number of newline characters of a text. *)
Fixpoint count_newlines (s : string) : nat :=
  match s with
  | EmptyString => 0
  | String c rest =>
      (if Ascii.eqb c LFchar then 1 else 0) + count_newlines rest
  end.

(** An entry that the loop of lines 201-217 prints. *)
Definition printed_entry (entry : value) : bool :=
  match entry with
  | VList _ | VMethod _ _ | VDotMap _ => false
  | _ => true
  end.

(** [s.rstrip()] for a text whose blanks are ASCII. *)
Definition ascii_blank (c : ascii) : bool :=
  let n := nat_of_ascii c in
  Nat.eqb n 32 || (Nat.leb 9 n && Nat.leb n 13) || (Nat.leb 28 n && Nat.leb n 31).

Fixpoint rstrip_ascii (s : string) : string :=
  match s with
  | EmptyString => EmptyString
  | String c rest =>
      match rstrip_ascii rest with
      | EmptyString => if ascii_blank c then EmptyString else String c EmptyString
      | kept => String c kept
      end
  end.

(** A library for the examples: [json.dumps] of [None], booleans and the
    integers 1 and 2 only, [json.loads] of three texts, two texts split into
    rows. *)
Definition demo_library : library :=
  mkLibrary
    (fun _ v =>
       match v with
       | VNone => Some "null"
       | VBool b => Some (if b then "true" else "false")
       | VInt z =>
           if Z.eqb z 1 then Some "1"
           else if Z.eqb z 2 then Some "2" else None
       | _ => None
       end)
    (fun s =>
       if String.eqb s "1" then Some (VInt 1)
       else if String.eqb s "2" then Some (VInt 2)
       else if String.eqb s "null" then Some VNone
       else None)
    rstrip_ascii
    (fun s =>
       if String.eqb s EmptyString then []
       else if String.eqb s ("1" ++ LF ++ "2" ++ LF) then ["1"; "2"]
       else [s])
    (fun _ => "?").

(** A second library for the examples, whose [json.dumps] writes every
    scalar: integers in decimal, a float by its two integers, a string
    between quotes with its newlines escaped. *)
Definition scalar_library : library :=
  mkLibrary
    (fun _ v =>
       match v with
       | VNone => Some "null"
       | VBool b => Some (if b then "true" else "false")
       | VInt z => Some (DecimalString.NilZero.string_of_int (Z.to_int z))
       | VFloat m e =>
           Some (DecimalString.NilZero.string_of_int (Z.to_int m) ++ "e"
                 ++ DecimalString.NilZero.string_of_int (Z.to_int e))%string
       | VStr s => Some (quote ++ escape_newlines s ++ quote)%string
       | _ => None
       end)
    (json_loads demo_library)
    rstrip_ascii
    (str_splitlines demo_library)
    (py_str demo_library).

(** ** [create_schema] *)

(** The eight colour strings of lines 108-126. *)
Record palette : Type := mkPalette {
  CEND : string;
  CBOLD : string;
  CKEYNAME : string;
  CKEYWORD : string;
  CNUMBER : string;
  CSTRING : string;
  CARRAYID : string;
  CARRAYBRACKET : string
}.

(** [JelloTheme.colors[key][1]] *)
Definition theme_code (colors : list (string * (string * string)))
    (key : string) : output string :=
  match lookup key colors with
  | Some (_, code) => Out code
  | None => Fails (Exn (KeyError key))
  end.

(** Lines 108-126. *)
Definition schema_palette (o : opts)
    (colors : list (string * (string * string))) : output palette :=
  if negb (truthy (mono o)) then
    (keyname <~~ theme_code colors "key_name" ;;
     keyword <~~ theme_code colors "keyword" ;;
     number <~~ theme_code colors "number" ;;
     str <~~ theme_code colors "string" ;;
     arrayid <~~ theme_code colors "array_id" ;;
     arraybracket <~~ theme_code colors "array_bracket" ;;
     Out (mkPalette (ESC ++ "[0m") (ESC ++ "[1m") keyname keyword number str
            arrayid arraybracket))%output
  else
    Out (mkPalette EmptyString EmptyString EmptyString EmptyString EmptyString
           EmptyString EmptyString EmptyString).

(** [f'{i}'] for an index. *)
Definition decimal (i : nat) : string :=
  DecimalString.NilZero.string_of_uint (Nat.to_uint i).

(** [f'{CARRAYBRACKET}[{CEND}{CARRAYID}{i}{CEND}{CARRAYBRACKET}]{CEND}'] *)
Definition index_text (p : palette) (i : nat) : string :=
  CARRAYBRACKET p ++ "[" ++ CEND p ++ CARRAYID p ++ decimal i ++ CEND p
  ++ CARRAYBRACKET p ++ "]" ++ CEND p.

(** [f'{CBOLD}{CKEYNAME}{k}{CEND}'] *)
Definition key_text (p : palette) (k : string) : string :=
  CBOLD p ++ CKEYNAME p ++ k ++ CEND p.

(** [val.replace('.', '', 1)] *)
Fixpoint drop_first_dot (s : string) : string :=
  match s with
  | EmptyString => EmptyString
  | String c rest =>
      if Ascii.eqb c "."%char then rest else String c (drop_first_dot rest)
  end.

Definition is_digit (c : ascii) : bool :=
  let n := nat_of_ascii c in Nat.leb 48 n && Nat.leb n 57.

Fixpoint all_digits (s : string) : bool :=
  match s with
  | EmptyString => true
  | String c rest => is_digit c && all_digits rest
  end.

(** [s.isdigit()] for a text written by [json.dumps], whose digits are
    ASCII. *)
Definition isdigit (s : string) : bool :=
  negb (String.eqb s EmptyString) && all_digits s.

(** Lines 150-155 and 161-166: the value with its colour. *)
Definition value_text (p : palette) (val : string) : string :=
  if String.eqb val "true" || String.eqb val "false" || String.eqb val "null"
  then CKEYWORD p ++ val ++ CEND p
  else if isdigit (drop_first_dot val) then CNUMBER p ++ val ++ CEND p
  else CSTRING p ++ val ++ CEND p.

(** Lines 148-157 (with [name] the coloured key after a dot) and lines
    160-170 (with [name] empty): the line of a value that is neither a list
    nor a dict, appended to [schema_list]. *)
Definition schema_line (lib : library) (p : palette) (v : value)
    (path : string) (schema_list : list string) : list string * output unit :=
  match dumps lib Plain v with
  | Out val =>
      (schema_list ++ [path ++ " = " ++ value_text p val ++ ";"]%string,
       Out tt)
  | Fails e => (schema_list, Fails e)
  | Unknown => (schema_list, Unknown)
  end.

Section SchemaLoops.
Variable call : value -> string -> list string -> list string * output unit.

(** [for i, item in enumerate(l): create_schema(item, path=...)], from
    index [i] on. *)
Fixpoint schema_items (item_path : nat -> string) (l : list value) (i : nat)
    (schema_list : list string) : list string * output unit :=
  match l with
  | [] => (schema_list, Out tt)
  | item :: l' =>
      match call item (item_path i) schema_list with
      | (schema_list', Out _) => schema_items item_path l' (S i) schema_list'
      | stopped => stopped
      end
  end.

(** Lines 137-157: the loop over the items of a dict. *)
Fixpoint schema_entries (lib : library) (o : opts) (p : palette)
    (path : string) (d : list (string * value)) (schema_list : list string)
  : list string * output unit :=
  match d with
  | [] => (schema_list, Out tt)
  | (k, v) :: d' =>
      match
        match v with
        | VList items =>
            schema_items
              (fun i => path ++ "." ++ key_text p k ++ index_text p i)%string
              items 0 schema_list
        | VDict _ =>
            call v
              (path ++ "."
               ++ (if negb (truthy (mono o)) then key_text p k else k))%string
              schema_list
        | VDotMap _ => (schema_list, Unknown)
        | _ =>
            schema_line lib p v (path ++ "." ++ key_text p k)%string
              schema_list
        end
      with
      | (schema_list', Out _) => schema_entries lib o p path d' schema_list'
      | stopped => stopped
      end
  end.
End SchemaLoops.

(** [create_schema(src, path)], lines 100-170: [schema_list] after the call
    and how the call ended.  [colors] is [JelloTheme.colors]. *)
Fixpoint create_schema (lib : library) (o : opts)
    (colors : list (string * (string * string))) (src : value) (path : string)
    (schema_list : list string) {struct src} : list string * output unit :=
  match schema_palette o colors with
  | Fails e => (schema_list, Fails e)
  | Unknown => (schema_list, Unknown)
  | Out p =>
      match src with
      | VList items =>
          schema_items (create_schema lib o colors)
            (fun i =>
               if String.eqb path EmptyString
               then ("." ++ index_text p i)%string
               else (path ++ "." ++ key_text p (py_str lib src)
                     ++ index_text p i)%string)
            items 0 schema_list
      | VDict d =>
          schema_entries (create_schema lib o colors) lib o p path d
            schema_list
      | VDotMap _ => (schema_list, Unknown)
      | _ =>
          schema_line lib p src
            (if String.eqb path EmptyString then "." else path) schema_list
      end
  end.

(** The values of a document that are neither a list nor a dict. *)
Fixpoint leaves (v : value) : nat :=
  match v with
  | VList l => list_sum (map leaves l)
  | VDict d => list_sum (map (fun kv => match kv with (_, x) => leaves x end) d)
  | _ => 1
  end.

(** A call that only appends to [schema_list], and appends the same lines
    whatever the list holds. *)
Definition appends (f : list string -> list string * output unit) : Prop :=
  forall schema_list,
    f schema_list = (schema_list ++ fst (f []), snd (f [])).

(** Two ways of calling that agree on a value. *)
Definition same_calls
    (call call' : value -> string -> list string -> list string * output unit)
    (v : value) : Prop :=
  forall path schema_list, call v path schema_list = call' v path schema_list.

(** A call on [v] that adds one line for each leaf of [v] and returns, when
    [v] is plain. *)
Definition adds_leaves
    (call : value -> string -> list string -> list string * output unit)
    (v : value) : Prop :=
  plain v = true ->
  forall path schema_list,
    exists new,
      call v path schema_list = (schema_list ++ new, Out tt)
      /\ List.length new = leaves v.

(** * Properties *)

(** ** Steps of the machine *)

Lemma bind_done {A B : Type} (c : M A) (k : A -> M B) m a m' :
  c m = (Done a, m') -> bind c k m = k a m'.
Proof. intros H. unfold bind. now rewrite H. Qed.

Lemma keeps_ran_ret {A : Type} (a : A) : keeps_ran (ret a).
Proof. now intros m. Qed.

Lemma keeps_ran_lift {A : Type} (c : outcome A) : keeps_ran (lift c).
Proof. now intros m. Qed.

Lemma keeps_ran_get_opts : keeps_ran get_opts.
Proof. now intros m. Qed.

Lemma keeps_ran_modify_opts f : keeps_ran (modify_opts f).
Proof. now intros m. Qed.

Lemma keeps_ran_print s : keeps_ran (print s).
Proof. now intros m. Qed.

Lemma keeps_ran_bind {A B : Type} (c : M A) (k : A -> M B) :
  keeps_ran c -> (forall a, keeps_ran (k a)) -> keeps_ran (bind c k).
Proof.
  intros Hc Hk m. unfold bind. specialize (Hc m).
  destruct (c m) as [[a | e |] m1]; simpl in *; try assumption.
  now rewrite Hk.
Qed.

Lemma keeps_ran_for_each {A : Type} (l : list A) (body : A -> M unit) :
  (forall x, keeps_ran (body x)) -> keeps_ran (for_each l body).
Proof.
  intros Hbody. induction l as [| x l IH]; simpl.
  - apply keeps_ran_ret.
  - apply keeps_ran_bind; [apply Hbody | intros _; exact IH].
Qed.

Create HintDb ran.
#[local] Hint Resolve keeps_ran_ret keeps_ran_lift keeps_ran_get_opts
  keeps_ran_modify_opts keeps_ran_print : ran.

Ltac keeps_ran_steps :=
  repeat first
    [ apply keeps_ran_bind; [| intro]
    | solve [auto with ran]
    | match goal with
      | |- keeps_ran (if ?b then _ else _) => destruct b
      | |- keeps_ran (match ?x with (_, _) => _ end) => destruct x
      | |- keeps_ran (match ?x with Some _ => _ | None => _ end) => destruct x
      end ].

(** ** Validation of the options *)

Section BulkReset.
Variable bad : value -> bool.
Variable reset : opts -> opts.
Hypothesis reset_twice : forall o, reset (reset o) = reset o.

Lemma bulk_reset_after_reset (l : list value) (o : opts) :
  fold_left
    (fun (st : opts * bool) (x : value) =>
       if bad x then (reset (fst st), true) else st)
    l (reset o, true)
  = (reset o, true).
Proof.
  induction l as [| x l IH]; simpl; [reflexivity |].
  destruct (bad x); [rewrite reset_twice |]; exact IH.
Qed.

Lemma bulk_reset_loop (l : list value) (o : opts) :
  fold_left
    (fun (st : opts * bool) (x : value) =>
       if bad x then (reset (fst st), true) else st)
    l (o, false)
  = if existsb bad l then (reset o, true) else (o, false).
Proof.
  induction l as [| x l IH]; simpl; [reflexivity |].
  destruct (bad x); simpl.
  - apply bulk_reset_after_reset.
  - exact IH.
Qed.
End BulkReset.

(** The loop of lines 308-311 resets the six options when, and only when,
    one of the six values is not a [bool]. *)
Lemma check_options_spec (o : opts) :
  check_options o
  = if existsb bad_option (option_values o) then (unset_options o, true)
    else (o, false).
Proof.
  unfold check_options. apply bulk_reset_loop. now intros [].
Qed.

(** The loop of lines 313-319 resets the six slots when, and only when, one
    of them is neither a colour name nor [None]. *)
Lemma check_colors_spec (o : opts) :
  check_colors o
  = if existsb bad_color (color_values o) then (unset_colors o, true)
    else (o, false).
Proof.
  unfold check_colors. apply bulk_reset_loop. now intros [].
Qed.

(** One validation, in closed form. *)
Lemma validate_spec (conf_file : string) (m : machine) :
  let o := m_opts m in
  let wo := existsb bad_option (option_values o) in
  let wc := existsb bad_color (color_values o) in
  let o1 := if wo then unset_options o else o in
  let o2 := if wc then unset_colors o1 else o1 in
  validate conf_file m
  = (Done tt, mkMachine o2 (m_stdout m ++ warnings conf_file wo wc) (m_ran m)).
Proof.
  destruct m as [o out ran]. cbn zeta.
  unfold validate, bind, get_opts, modify_opts, print, ret.
  cbn [m_opts m_stdout m_ran]. rewrite check_options_spec.
  destruct (existsb bad_option (option_values o)) eqn:Ho;
    cbn [m_opts m_stdout m_ran]; rewrite check_colors_spec;
    change (color_values (unset_options o)) with (color_values o);
    destruct (existsb bad_color (color_values o)) eqn:Hc;
    cbn [m_opts m_stdout m_ran]; unfold warnings;
    rewrite ?app_nil_r, <- ?app_assoc; reflexivity.
Qed.

Lemma options_warning_neq_colors_warning (conf_file : string) :
  options_warning conf_file <> colors_warning conf_file.
Proof. unfold options_warning, colors_warning. simpl. discriminate. Qed.

(** ** Before the query runs *)

Lemma keeps_ran_validate conf_file : keeps_ran (validate conf_file).
Proof. intros m. now rewrite validate_spec. Qed.

Lemma keeps_ran_extract h sc targets rhs name set :
  keeps_ran (extract h sc targets rhs name set).
Proof. unfold extract. keeps_ran_steps. Qed.

Lemma keeps_ran_prelude_step h sc conf_file s :
  keeps_ran (prelude_step h sc conf_file s).
Proof.
  destruct s; simpl; auto with ran.
  repeat (apply keeps_ran_bind; [apply keeps_ran_extract | intros _]).
  apply keeps_ran_validate.
Qed.

Lemma keeps_ran_load_conf h : keeps_ran (load_conf h).
Proof. unfold load_conf. keeps_ran_steps. Qed.

(** Nothing of lines 247-326 executes a statement of the script: the
    right-hand sides of the option assignments are evaluated, not run. *)
Lemma keeps_ran_setup h data query : keeps_ran (setup h data query).
Proof.
  unfold setup. cbn zeta.
  apply keeps_ran_bind; [apply keeps_ran_load_conf | intros [jelloconf conf_file]].
  apply keeps_ran_bind; [apply keeps_ran_lift | intros body].
  apply keeps_ran_bind; [| intros _; apply keeps_ran_ret].
  apply keeps_ran_for_each. intros s. apply keeps_ran_prelude_step.
Qed.

Lemma setup_ran h data query m r m1 :
  setup h data query m = (r, m1) -> m_ran m1 = m_ran m.
Proof.
  intros H. pose proof (keeps_ran_setup h data query m) as K.
  now rewrite H in K.
Qed.

(** Without [-i] there is no initialization text: the script is the query
    and only the parse of the empty text stands before it. *)
Lemma setup_without_initialize h data query m :
  truthy (initialize (m_opts m)) = false ->
  ast_parse h EmptyString = Some [] ->
  setup h data query m
  = (Done (query, frame data (wrap_input data) query EmptyString EmptyString), m).
Proof.
  intros Hi Hp. unfold setup, load_conf, bind, get_opts, parse, lift, ret.
  cbn zeta. rewrite Hi. cbn [append]. rewrite Hp. reflexivity.
Qed.

(** ** The split of the script *)

Lemma pop_snoc {A : Type} (l : list A) (x : A) : pop (l ++ [x]) = Done (l, x).
Proof.
  induction l as [| y l IH]; [reflexivity |].
  change ((y :: l) ++ [x]) with (y :: (l ++ [x])).
  cbn [pop]. rewrite IH. destruct (l ++ [x]) eqn:E; [| reflexivity].
  now destruct l.
Qed.

Lemma pyquery_after_setup h data query m script sc m1 :
  setup h data query m = (Done (script, sc), m1) ->
  pyquery h data query m
  = bind (run_query h script sc) (fun output => lift (normalize output)) m1.
Proof. intros H. unfold pyquery. now rewrite (bind_done _ _ _ _ _ H). Qed.

Lemma run_query_empty h script sc m :
  ast_parse h script = Some [] ->
  run_query h script sc m = (Raise IndexError, m).
Proof.
  intros Hp. unfold run_query, bind, lift, parse. now rewrite Hp.
Qed.

Lemma run_query_split h script sc block node m :
  ast_parse h script = Some (block ++ [node]) ->
  run_query h script sc m
  = bind (lift (node_value node))
      (fun last =>
         bind (exec_block (accessors h) block sc)
           (fun sc' => lift (eval (accessors h) last sc'))) m.
Proof.
  intros Hp. unfold run_query, parse. rewrite Hp.
  unfold bind at 1. unfold lift at 1. unfold bind at 1. unfold lift at 1.
  now rewrite pop_snoc.
Qed.

(** A script that ends in a node with a [value] field runs up to the
    conversion of the result. *)
Lemma pyquery_reaches_normalize h data query m script sc m1 block node last
    sc' m2 output :
  setup h data query m = (Done (script, sc), m1) ->
  ast_parse h script = Some (block ++ [node]) ->
  node_value node = Done last ->
  exec_block (accessors h) block sc m1 = (Done sc', m2) ->
  eval (accessors h) last sc' = Done output ->
  pyquery h data query m = (normalize output, m2).
Proof.
  intros Hs Hp Hv Hx He. rewrite (pyquery_after_setup _ _ _ _ _ _ _ Hs).
  unfold bind at 1. rewrite (run_query_split _ _ _ _ _ _ Hp), Hv.
  unfold bind at 1. unfold lift at 1. unfold bind at 1. rewrite Hx.
  unfold lift at 1. rewrite He. unfold lift. reflexivity.
Qed.

(** ** Execution keeps the variables of [pyquery] *)

Lemma suite_is_exec_block accessors (l : list stmt) (sc : scope) (m : machine) :
  (fix suite (ss : list stmt) (sc0 : scope) {struct ss} : M scope :=
     match ss with
     | [] => ret sc0
     | s' :: ss' =>
         bind (exec_stmt accessors s' sc0) (fun sc' => suite ss' sc')
     end) l sc m
  = exec_block accessors l sc m.
Proof.
  revert sc m. induction l as [| s l IH]; intros sc m; [reflexivity |].
  cbn [exec_block]. unfold bind.
  destruct (exec_stmt accessors s sc m) as [[sc' | e |] m']; try reflexivity.
  apply IH.
Qed.

Lemma exec_stmt_If accessors test body orelse sc m :
  exec_stmt accessors (If test body orelse) sc m
  = bind (tick (If test body orelse))
      (fun _ =>
         bind (lift (eval accessors test sc))
           (fun c =>
              exec_block accessors (if truthy c then body else orelse) sc)) m.
Proof.
  cbn [exec_stmt]. unfold bind, tick, lift.
  destruct (eval accessors test sc) as [c | e |]; try reflexivity.
  apply suite_is_exec_block.
Qed.

Lemma lookup_store (x : string) (target : expr) (v : value) (sc sc' : scope) :
  mem_string x frame_locals = true ->
  store target v sc = Done sc' -> lookup x sc' = lookup x sc.
Proof.
  intros Hx. destruct target as [| id | | | |]; try discriminate.
  unfold store. destruct (mem_string id frame_locals) eqn:Hid; [discriminate |].
  intros H. injection H as <-. cbn [lookup].
  destruct (String.eqb x id) eqn:E; [| reflexivity].
  apply String.eqb_eq in E. subst id. congruence.
Qed.

Lemma lookup_store_all (x : string) (targets : list expr) (v : value)
    (sc sc' : scope) :
  mem_string x frame_locals = true ->
  store_all targets v sc = Done sc' -> lookup x sc' = lookup x sc.
Proof.
  intros Hx. revert sc. induction targets as [| t ts IH]; intros sc; simpl.
  - intros H. now injection H as <-.
  - destruct (store t v sc) as [sc1 | e |] eqn:Ht; simpl; try discriminate.
    intros H. rewrite (IH _ H). exact (lookup_store _ _ _ _ _ Hx Ht).
Qed.

Lemma exec_block_keeps_local accessors (x : string) (block : list stmt) :
  Forall (keeps_local accessors x) block ->
  forall sc m sc' m',
    exec_block accessors block sc m = (Done sc', m') ->
    lookup x sc' = lookup x sc.
Proof.
  induction 1 as [| s block Hs _ IH]; intros sc m sc' m'; cbn [exec_block].
  - unfold ret. intros H. now injection H as <- _.
  - unfold bind. destruct (exec_stmt accessors s sc m) as [[sc1 | e |] m1] eqn:E;
      try discriminate.
    intros H. rewrite (IH _ _ _ _ H). exact (Hs _ _ _ _ E).
Qed.

Lemma exec_stmt_keeps_local accessors (x : string) (s : stmt) :
  mem_string x frame_locals = true -> keeps_local accessors x s.
Proof.
  intros Hx. induction s as [e | targets e | | test body orelse IHb IHo]
    using stmt_deep_ind; intros sc m sc' m'.
  - cbn [exec_stmt]. unfold bind, tick, lift, ret.
    destruct (eval accessors e sc); try discriminate.
    intros H. now injection H as <- _.
  - cbn [exec_stmt]. unfold bind, tick, lift.
    destruct (eval accessors e sc) as [v | |]; try discriminate.
    intros H. injection H as H _. exact (lookup_store_all _ _ _ _ _ Hx H).
  - cbn [exec_stmt]. unfold bind, tick, ret. intros H. now injection H as <- _.
  - rewrite exec_stmt_If. unfold bind at 1. unfold tick at 1.
    unfold bind at 1. unfold lift at 1.
    destruct (eval accessors test sc) as [c | |]; try discriminate.
    apply exec_block_keeps_local. now destruct (truthy c).
Qed.

Lemma exec_block_keeps_frame accessors (x : string) (block : list stmt)
    sc m sc' m' :
  mem_string x frame_locals = true ->
  exec_block accessors block sc m = (Done sc', m') ->
  lookup x sc' = lookup x sc.
Proof.
  intros Hx. apply exec_block_keeps_local. apply Forall_forall.
  intros s _. now apply exec_stmt_keeps_local.
Qed.

(** The frame handed to the script binds [_] to the wrapped input. *)
Lemma setup_binds_input h data query m script sc m1 :
  setup h data query m = (Done (script, sc), m1) ->
  lookup "_" sc = Some (wrap_input data).
Proof.
  unfold setup. cbn zeta. unfold bind at 1.
  destruct (load_conf h m) as [[[jelloconf conf_file] | e |] m0]; try discriminate.
  unfold bind at 1. unfold lift at 1.
  destruct (parse h jelloconf) as [body | e |]; try discriminate.
  unfold bind at 1.
  destruct (for_each body _ m0) as [[[] | e |] m0']; try discriminate.
  unfold ret. intros H. now injection H as _ <- _.
Qed.

(** ** The conversion of the result *)

Lemma normalize_list (items : list value) :
  normalize (VList items) = Done (VList (map plain_item items)).
Proof. reflexivity. Qed.

Lemma normalize_method (self : value) (name : string) :
  normalize (VMethod self name) = Raise (ValueError reserved_key_message).
Proof. reflexivity. Qed.

Lemma plain_item_nth (items : list value) (n : nat) (i : value) :
  nth_error items n = Some i ->
  nth_error (map plain_item items) n = Some (plain_item i).
Proof. intros H. now rewrite nth_error_map, H. Qed.

Lemma plain_not_DotMap (v : value) : plain v = true -> isinstance_DotMap v = false.
Proof. now destruct v. Qed.

Lemma plain_items_fixed (l : list value) :
  forallb plain l = true -> map plain_item l = l.
Proof.
  induction l as [| x l IH]; simpl; [reflexivity |].
  intros H. apply andb_prop in H as [Hx Hl].
  unfold plain_item at 1. rewrite (plain_not_DotMap _ Hx). now rewrite IH.
Qed.

Lemma normalize_plain (v : value) : plain v = true -> normalize v = Done v.
Proof.
  destruct v; simpl; try discriminate; try reflexivity.
  intros H. unfold normalize. now rewrite plain_items_fixed.
Qed.

(** Unwrapping leaves plain data as it is. *)
Lemma unwrap_plain (v : value) : plain v = true -> unwrap_node v = v.
Proof.
  induction v as [| | | | | l IH | d IH | d IH | self name IH]
    using value_deep_ind; simpl; try reflexivity; try discriminate.
  - intros H. f_equal.
    induction IH as [| x l Hx _ IHl]; simpl in *; [reflexivity |].
    apply andb_prop in H as [H1 H2]. now rewrite Hx, IHl.
Qed.

(** Unwrapping undoes wrapping on plain data. *)
Lemma unwrap_wrap (v : value) : plain v = true -> unwrap_node (wrap_node v) = v.
Proof.
  induction v as [| | | | | l IH | d IH | d IH | self name IH]
    using value_deep_ind; simpl; try reflexivity; try discriminate.
  - intros H. f_equal. rewrite map_map.
    induction IH as [| x l Hx _ IHl]; simpl in *; [reflexivity |].
    apply andb_prop in H as [H1 H2]. rewrite (IHl H2). f_equal.
    destruct x; try (now apply unwrap_plain); now apply Hx.
  - intros H. f_equal. rewrite map_map.
    induction IH as [| [k x] l Hx _ IHl]; simpl in *; [reflexivity |].
    apply andb_prop in H as [H1 H2]. now rewrite Hx, IHl.
Qed.

Lemma toDict_DotMap (d : list (string * value)) :
  plain (VDict d) = true -> toDict (DotMap d) = VDict d.
Proof. intros H. unfold toDict, DotMap. now apply unwrap_wrap. Qed.

Lemma DotMap_is_DotMap (d : list (string * value)) :
  isinstance_DotMap (DotMap d) = true.
Proof. reflexivity. Qed.

(** The query [_] yields the wrapped input, whatever statements the
    initialization file puts before it. *)
Lemma identity_query_returns_input h data m script sc m1 block sc' m2 :
  setup h data "_" m = (Done (script, sc), m1) ->
  ast_parse h script = Some (block ++ [Expr (Name "_")]) ->
  exec_block (accessors h) block sc m1 = (Done sc', m2) ->
  pyquery h data "_" m = (normalize (wrap_input data), m2).
Proof.
  intros Hs Hp Hx.
  apply (pyquery_reaches_normalize _ _ _ _ _ _ _ _ _ _ _ _ _ Hs Hp eq_refl Hx).
  cbn [eval].
  rewrite (exec_block_keeps_frame _ "_" _ _ _ _ _ eq_refl Hx).
  now rewrite (setup_binds_input _ _ _ _ _ _ _ Hs).
Qed.

(** Section 8, property 2. *)
Example nested_field_read :
  fst (pyquery demo_host
         (VDict [("a", VInt 1); ("b", VDict [("c", VInt 2)])]) "_.b.c"
         (machine_of opts_unset))
  = Done (VInt 2).
Proof. reflexivity. Qed.

(** Section 8, property 3. *)
Example comprehension_keeps_order :
  fst (pyquery demo_host
         (VList [VDict [("x", VInt 1)]; VDict [("x", VInt 2)]])
         "[i.x for i in _]" (machine_of opts_unset))
  = Done (VList [VInt 1; VInt 2]).
Proof. reflexivity. Qed.

(** Section 8, property 7, second half: explicit key-indexing reaches the
    data stored under a reserved name. *)
Example reserved_key_by_index :
  fst (pyquery demo_host (VDict [("toDict", VInt 1)]) "_['toDict']"
         (machine_of opts_unset))
  = Done (VInt 1).
Proof. reflexivity. Qed.

(** * The claims *)

(** C1.  Evaluation of the code where the claim fails.  The claim: the six
    boolean options are reset, with a warning, exactly when one of them has
    been set to a non-boolean value; options that are booleans or unset cause
    no reset and no warning.  With every option unset and an initialization
    file whose only line is [compact = True], the test of line 309 rejects the
    five options still holding [None]: the six are reset, so that [compact]
    ends unset again, and the warning is printed.  The same happens when the
    six flags start as [False] and the file reads [compact = 'yes'] then
    [raw = True]: the first line unsets the six, and after the second line,
    with [raw] a boolean and the others unset, they are reset and the warning
    is printed again. *)
Theorem unset_option_triggers_boolean_reset :
  check_options (set_compact (VBool true) opts_unset) = (opts_unset, true)
  /\ check_colors (set_compact (VBool true) opts_unset)
     = (set_compact (VBool true) opts_unset, false)
  /\ pyquery
       (conf_host ("compact = True" ++ LF)
          [Assign [Name "compact"] (Constant (CBool true))])
       (VInt 3) "_" (machine_of opts_initialize)
     = (Done (VInt 3),
        mkMachine opts_initialize [options_warning conf_path]
          [Assign [Name "compact"] (Constant (CBool true))])
  /\ pyquery
       (conf_host ("compact = 'yes'" ++ LF ++ "raw = True" ++ LF)
          [Assign [Name "compact"] (Constant (CStr "yes"));
           Assign [Name "raw"] (Constant (CBool true))])
       (VInt 3) "_" (machine_of opts_flags_off)
     = (Done (VInt 3),
        mkMachine opts_initialize
          [options_warning conf_path; options_warning conf_path]
          [Assign [Name "compact"] (Constant (CStr "yes"));
           Assign [Name "raw"] (Constant (CBool true))]).
Proof. repeat split; vm_compute; reflexivity. Qed.

(** C3.  Evaluation of the code where the claim fails.  The claim: when the
    boolean reset is triggered, exactly one boolean-option warning is recorded
    for the whole initialization text, not one per assignment.  The validation
    of lines 304-326 sits inside the loop of line 277: an initialization file
    with the two lines [compact = 'yes'] and [raw = 'no'] prints the warning
    twice, whether the six flags start unset or [False]. *)
Theorem boolean_warning_repeats_per_assignment :
  let h :=
    conf_host ("compact = 'yes'" ++ LF ++ "raw = 'no'" ++ LF)
      [Assign [Name "compact"] (Constant (CStr "yes"));
       Assign [Name "raw"] (Constant (CStr "no"))] in
  m_stdout (snd (pyquery h (VInt 3) "_" (machine_of opts_initialize)))
  = [options_warning conf_path; options_warning conf_path]
  /\ m_stdout (snd (pyquery h (VInt 3) "_" (machine_of opts_flags_off)))
     = [options_warning conf_path; options_warning conf_path].
Proof. split; vm_compute; reflexivity. Qed.

(** One validation of the options (lines 304-326) resets the six colour
    slots to [None] and prints the colour warning exactly once when at least
    one slot holds a value that is neither [None] nor one of the sixteen colour
    names; otherwise the slots are left as they are and the colour warning is
    not printed. *)
Lemma color_validation_all_or_nothing (conf_file : string) (m : machine) :
  let any_bad := existsb bad_color (color_values (m_opts m)) in
  let m' := snd (validate conf_file m) in
  fst (validate conf_file m) = Done tt
  /\ color_values (m_opts m')
     = (if any_bad then [VNone; VNone; VNone; VNone; VNone; VNone]
        else color_values (m_opts m))
  /\ count_occ string_dec (m_stdout m') (colors_warning conf_file)
     = count_occ string_dec (m_stdout m) (colors_warning conf_file)
       + (if any_bad then 1 else 0).
Proof.
  cbn zeta. rewrite validate_spec. cbn [fst snd m_opts m_stdout].
  split; [reflexivity |]. split.
  - destruct (existsb bad_option (option_values (m_opts m)));
      destruct (existsb bad_color (color_values (m_opts m))); reflexivity.
  - rewrite count_occ_app. f_equal. unfold warnings. rewrite count_occ_app.
    assert (Hneq : count_occ string_dec [options_warning conf_file]
                     (colors_warning conf_file) = 0).
    { cbn [count_occ].
      destruct (string_dec (options_warning conf_file) (colors_warning conf_file))
        as [E | _]; [| reflexivity].
      now apply options_warning_neq_colors_warning in E. }
    assert (Heq : count_occ string_dec [colors_warning conf_file]
                    (colors_warning conf_file) = 1).
    { cbn [count_occ].
      destruct (string_dec (colors_warning conf_file) (colors_warning conf_file))
        as [_ | N]; [reflexivity | now elim N]. }
    destruct (existsb bad_option (option_values (m_opts m)));
      destruct (existsb bad_color (color_values (m_opts m)));
      rewrite ?Hneq, ?Heq; reflexivity.
Qed.

(** C4.  Evaluation of the code where the claim fails.  The claim: during
    the validation of the initialization file the six colour slots are reset
    together, with exactly one colour warning, exactly when one of them is set
    to a value outside the sixteen names.  The validation of lines 304-326
    sits inside the loop of line 277 and runs after each assignment (the
    defect of C3).  With the six flags [False], a file with the lines
    [keyname_color = 'purple'] and [keyword_color = 'pink'] prints the colour
    warning twice; and a file with the lines [keyname_color = 'purple'] and
    [keyword_color = 'red'] ends with [keyword_color] set to ['red']: the
    slot assigned after the reset is not unset, although the file sets a
    colour outside the sixteen names. *)
Theorem color_warning_repeats_per_assignment :
  m_stdout
    (snd (pyquery
            (conf_host
               ("keyname_color = 'purple'" ++ LF
                ++ "keyword_color = 'pink'" ++ LF)
               [Assign [Name "keyname_color"] (Constant (CStr "purple"));
                Assign [Name "keyword_color"] (Constant (CStr "pink"))])
            (VInt 3) "_" (machine_of opts_flags_off)))
  = [colors_warning conf_path; colors_warning conf_path]
  /\ (let m' :=
        snd (pyquery
               (conf_host
                  ("keyname_color = 'purple'" ++ LF
                   ++ "keyword_color = 'red'" ++ LF)
                  [Assign [Name "keyname_color"] (Constant (CStr "purple"));
                   Assign [Name "keyword_color"] (Constant (CStr "red"))])
               (VInt 3) "_" (machine_of opts_flags_off)) in
      color_values (m_opts m')
      = [VNone; VStr "red"; VNone; VNone; VNone; VNone]
      /\ m_stdout m' = [colors_warning conf_path]).
Proof. repeat split; vm_compute; reflexivity. Qed.

(** C2, as stated, fails: the script [x = 1] is syntactically valid and its
    last (and only) node is an assignment, not an expression, yet evaluation
    does not fail: line 330 reads the field [value] of the assignment and the
    result is [1]. *)
Lemma assignment_only_script_is_evaluated :
  ast_parse demo_host "x = 1" = Some [Assign [Name "x"] (Constant (CInt 1))]
  /\ isinstance_Expr (Assign [Name "x"] (Constant (CInt 1))) = false
  /\ pyquery demo_host (VInt 3) "x = 1" (machine_of opts_unset)
     = (Done (VInt 1), machine_of opts_unset)
  /\ ~ (exists e m', pyquery demo_host (VInt 3) "x = 1" (machine_of opts_unset)
                     = (Raise e, m')).
Proof.
  repeat split; try reflexivity.
  intros (e & m' & H). vm_compute in H. discriminate H.
Qed.

(** C2, amended.  For every syntactically valid script whose last top-level
    node is not an expression: when that node has no field [value] ([pass],
    [if]), evaluation fails with the attribute error of line 330 before any
    statement is executed; when that node is an assignment, the script is not
    rejected: the leading statements are executed and the right-hand side of
    the assignment is evaluated as the final expression. *)
Theorem script_not_ending_in_expression (h : host) (data : value)
    (query : string) (m : machine) (script : string) (sc : scope)
    (m1 : machine) (block : list stmt) (node : stmt) :
  setup h data query m = (Done (script, sc), m1) ->
  ast_parse h script = Some (block ++ [node]) ->
  isinstance_Expr node = false ->
  match node with
  | Assign _ rhs =>
      pyquery h data query m
      = bind (exec_block (accessors h) block sc)
          (fun sc' =>
             bind (lift (eval (accessors h) rhs sc'))
               (fun output => lift (normalize output))) m1
  | _ =>
      pyquery h data query m = (Raise AttributeError, m1)
      /\ m_ran m1 = m_ran m
  end.
Proof.
  intros Hs Hp Hn.
  pose proof (setup_ran _ _ _ _ _ _ Hs) as Hran.
  destruct node as [e | targets rhs | | test body orelse];
    [discriminate Hn | | |];
    rewrite (pyquery_after_setup _ _ _ _ _ _ _ Hs);
    unfold bind at 1; rewrite (run_query_split _ _ _ _ _ _ Hp);
    cbn [node_value]; unfold bind at 1; unfold lift at 1;
    [| now split | now split].
  unfold bind.
  destruct (exec_block (accessors h) block sc m1) as [[sc' | e |] m2];
    reflexivity.
Qed.

Lemma script_not_ending_in_expression_witness :
  pyquery demo_host (VInt 3) "pass" (machine_of opts_unset)
  = (Raise AttributeError, machine_of opts_unset)
  /\ m_ran (machine_of opts_unset) = m_ran (machine_of opts_unset).
Proof.
  apply (script_not_ending_in_expression demo_host (VInt 3) "pass"
           (machine_of opts_unset) "pass"
           (frame (VInt 3) (VInt 3) "pass" EmptyString EmptyString)
           (machine_of opts_unset) [] Pass); reflexivity.
Defined.

(** C5.  When the final expression evaluates to a bound accessor, [pyquery]
    raises the [ValueError] of line 343, whose message tells the caller to use
    bracket notation; no value is returned. *)
Theorem accessor_result_is_rejected (h : host) (data : value) (query : string)
    (m : machine) (script : string) (sc : scope) (m1 : machine)
    (block : list stmt) (node : stmt) (last : expr) (sc' : scope)
    (m2 : machine) (self : value) (name : string) :
  setup h data query m = (Done (script, sc), m1) ->
  ast_parse h script = Some (block ++ [node]) ->
  node_value node = Done last ->
  exec_block (accessors h) block sc m1 = (Done sc', m2) ->
  eval (accessors h) last sc' = Done (VMethod self name) ->
  pyquery h data query m
  = (Raise (ValueError
       "Reserved key name. Use bracket notation to access this key."), m2).
Proof.
  intros Hs Hp Hv Hx He.
  rewrite (pyquery_reaches_normalize _ _ _ _ _ _ _ _ _ _ _ _ _ Hs Hp Hv Hx He).
  reflexivity.
Qed.

Lemma accessor_result_is_rejected_witness :
  eval (accessors demo_host) (Attribute (Name "_") "toDict")
    [("_", DotMap [("toDict", VInt 1)])]
  = Done (VMethod (DotMap [("toDict", VInt 1)]) "toDict")
  /\ pyquery demo_host (VDict [("toDict", VInt 1)]) "_.toDict"
       (machine_of opts_unset)
     = (Raise (ValueError
          "Reserved key name. Use bracket notation to access this key."),
        machine_of opts_unset).
Proof.
  split; [reflexivity |].
  apply (accessor_result_is_rejected demo_host (VDict [("toDict", VInt 1)])
           "_.toDict" (machine_of opts_unset) "_.toDict"
           (frame (VDict [("toDict", VInt 1)]) (DotMap [("toDict", VInt 1)])
              "_.toDict" EmptyString EmptyString)
           (machine_of opts_unset) [] (Expr (Attribute (Name "_") "toDict"))
           (Attribute (Name "_") "toDict")
           (frame (VDict [("toDict", VInt 1)]) (DotMap [("toDict", VInt 1)])
              "_.toDict" EmptyString EmptyString)
           (machine_of opts_unset) (DotMap [("toDict", VInt 1)]) "toDict");
    reflexivity.
Defined.

(** C6.  When the final expression evaluates to a list, [pyquery] returns a
    list of the same length and in the same order: at every position a
    wrapper is replaced by its [toDict()] form (for the wrapper of a plain
    dict, that dict) and any other element is the element itself. *)
Theorem list_result_unwrapped_in_order (h : host) (data : value)
    (query : string) (m : machine) (script : string) (sc : scope)
    (m1 : machine) (block : list stmt) (node : stmt) (last : expr)
    (sc' : scope) (m2 : machine) (items : list value) :
  setup h data query m = (Done (script, sc), m1) ->
  ast_parse h script = Some (block ++ [node]) ->
  node_value node = Done last ->
  exec_block (accessors h) block sc m1 = (Done sc', m2) ->
  eval (accessors h) last sc' = Done (VList items) ->
  exists items' : list value,
    pyquery h data query m = (Done (VList items'), m2)
    /\ List.length items' = List.length items
    /\ (forall n i, nth_error items n = Some i ->
          nth_error items' n
          = Some (if isinstance_DotMap i then toDict i else i))
    /\ (forall n d, nth_error items n = Some (DotMap d) ->
          plain (VDict d) = true -> nth_error items' n = Some (VDict d)).
Proof.
  intros Hs Hp Hv Hx He. exists (map plain_item items).
  rewrite (pyquery_reaches_normalize _ _ _ _ _ _ _ _ _ _ _ _ _ Hs Hp Hv Hx He).
  rewrite normalize_list. split; [reflexivity |].
  split; [apply length_map |]. split.
  - intros n i Hn. exact (plain_item_nth _ _ _ Hn).
  - intros n d Hn Hd. rewrite (plain_item_nth _ _ _ Hn).
    unfold plain_item. rewrite DotMap_is_DotMap. now rewrite toDict_DotMap.
Qed.

Lemma list_result_unwrapped_in_order_witness :
  exists items' : list value,
    pyquery demo_host (VList [VDict [("x", VInt 1)]; VInt 7]) "_"
      (machine_of opts_unset)
    = (Done (VList items'), machine_of opts_unset)
    /\ List.length items' = 2
    /\ (forall n i,
          nth_error [DotMap [("x", VInt 1)]; VInt 7] n = Some i ->
          nth_error items' n
          = Some (if isinstance_DotMap i then toDict i else i))
    /\ (forall n d,
          nth_error [DotMap [("x", VInt 1)]; VInt 7] n = Some (DotMap d) ->
          plain (VDict d) = true -> nth_error items' n = Some (VDict d)).
Proof.
  apply (list_result_unwrapped_in_order demo_host
           (VList [VDict [("x", VInt 1)]; VInt 7]) "_" (machine_of opts_unset)
           "_"
           (frame (VList [VDict [("x", VInt 1)]; VInt 7])
              (VList [DotMap [("x", VInt 1)]; VInt 7])
              "_" EmptyString EmptyString)
           (machine_of opts_unset) [] (Expr (Name "_")) (Name "_")
           (frame (VList [VDict [("x", VInt 1)]; VInt 7])
              (VList [DotMap [("x", VInt 1)]; VInt 7])
              "_" EmptyString EmptyString)
           (machine_of opts_unset) [DotMap [("x", VInt 1)]; VInt 7]);
    reflexivity.
Defined.

(** C7.  The empty script: the parse yields no statement, [pop] on the empty
    list of line 330 raises, and no statement has been executed. *)
Theorem empty_script_fails_before_execution (h : host) (data : value)
    (query : string) (m : machine) (script : string) (sc : scope)
    (m1 : machine) :
  setup h data query m = (Done (script, sc), m1) ->
  ast_parse h script = Some [] ->
  pyquery h data query m = (Raise IndexError, m1) /\ m_ran m1 = m_ran m.
Proof.
  intros Hs Hp. split; [| exact (setup_ran _ _ _ _ _ _ Hs)].
  rewrite (pyquery_after_setup _ _ _ _ _ _ _ Hs).
  unfold bind. now rewrite (run_query_empty _ _ _ _ Hp).
Qed.

Lemma empty_script_fails_before_execution_witness :
  ast_parse demo_host EmptyString = Some []
  /\ pyquery demo_host (VInt 3) EmptyString (machine_of opts_unset)
     = (Raise IndexError, machine_of opts_unset)
  /\ m_ran (machine_of opts_unset) = m_ran (machine_of opts_unset).
Proof.
  split; [reflexivity |].
  apply (empty_script_fails_before_execution demo_host (VInt 3) EmptyString
           (machine_of opts_unset) EmptyString
           (frame (VInt 3) (VInt 3) EmptyString EmptyString EmptyString)
           (machine_of opts_unset)); reflexivity.
Defined.

(** C8.  A scalar is bound to [_] as it is (line 256), and the query [_]
    returns it unchanged, whatever statements the initialization file puts
    before the query. *)
Theorem scalar_identity_round_trip (h : host) (v : value) (m : machine)
    (script : string) (sc : scope) (m1 : machine) (block : list stmt)
    (sc' : scope) (m2 : machine) :
  scalar v = true ->
  setup h v "_" m = (Done (script, sc), m1) ->
  ast_parse h script = Some (block ++ [Expr (Name "_")]) ->
  exec_block (accessors h) block sc m1 = (Done sc', m2) ->
  wrap_input v = v /\ pyquery h v "_" m = (Done v, m2).
Proof.
  intros Hv Hs Hp Hx.
  assert (Hw : wrap_input v = v) by (destruct v; try discriminate; reflexivity).
  split; [exact Hw |].
  rewrite (identity_query_returns_input _ _ _ _ _ _ _ _ _ Hs Hp Hx), Hw.
  f_equal. destruct v; try discriminate; reflexivity.
Qed.

Lemma scalar_identity_round_trip_witness :
  scalar (VStr "jello") = true
  /\ wrap_input (VStr "jello") = VStr "jello"
  /\ pyquery demo_host (VStr "jello") "_" (machine_of opts_unset)
     = (Done (VStr "jello"), machine_of opts_unset).
Proof.
  split; [reflexivity |].
  apply (scalar_identity_round_trip demo_host (VStr "jello")
           (machine_of opts_unset) "_"
           (frame (VStr "jello") (VStr "jello") "_" EmptyString EmptyString)
           (machine_of opts_unset) []
           (frame (VStr "jello") (VStr "jello") "_" EmptyString EmptyString)
           (machine_of opts_unset)); reflexivity.
Defined.

(** C9.  On a plain value the conversion of lines 334-345 returns the value
    itself, so converting twice is converting once. *)
Theorem normalize_idempotent_on_plain (v : value) :
  plain v = true ->
  normalize v = Done v /\ obind (normalize v) normalize = normalize v.
Proof.
  intros H. pose proof (normalize_plain v H) as E.
  split; [exact E |]. rewrite E. simpl. exact E.
Qed.

Lemma normalize_idempotent_on_plain_witness :
  normalize (VList [VDict [("a", VList [VInt 1; VNone])]; VStr "b"])
  = Done (VList [VDict [("a", VList [VInt 1; VNone])]; VStr "b"])
  /\ obind (normalize (VList [VDict [("a", VList [VInt 1; VNone])]; VStr "b"]))
       normalize
     = normalize (VList [VDict [("a", VList [VInt 1; VNone])]; VStr "b"]).
Proof.
  apply (normalize_idempotent_on_plain
           (VList [VDict [("a", VList [VInt 1; VNone])]; VStr "b"])).
  reflexivity.
Defined.

(** C10.  The check of line 342 looks at the result itself only: a bound
    accessor that is an element of a list result stays in its place and the
    list is returned. *)
Theorem accessor_inside_list_is_returned (h : host) (data : value)
    (query : string) (m : machine) (script : string) (sc : scope)
    (m1 : machine) (block : list stmt) (node : stmt) (last : expr)
    (sc' : scope) (m2 : machine) (items : list value) (n : nat)
    (self : value) (name : string) :
  setup h data query m = (Done (script, sc), m1) ->
  ast_parse h script = Some (block ++ [node]) ->
  node_value node = Done last ->
  exec_block (accessors h) block sc m1 = (Done sc', m2) ->
  eval (accessors h) last sc' = Done (VList items) ->
  nth_error items n = Some (VMethod self name) ->
  exists items' : list value,
    pyquery h data query m = (Done (VList items'), m2)
    /\ List.length items' = List.length items
    /\ nth_error items' n = Some (VMethod self name).
Proof.
  intros Hs Hp Hv Hx He Hn. exists (map plain_item items).
  rewrite (pyquery_reaches_normalize _ _ _ _ _ _ _ _ _ _ _ _ _ Hs Hp Hv Hx He).
  rewrite normalize_list. split; [reflexivity |].
  split; [apply length_map |]. now rewrite (plain_item_nth _ _ _ Hn).
Qed.

Lemma accessor_inside_list_is_returned_witness :
  exists items' : list value,
    pyquery demo_host (VDict [("toDict", VInt 1)]) "[_.toDict]"
      (machine_of opts_unset)
    = (Done (VList items'), machine_of opts_unset)
    /\ List.length items' = 1
    /\ nth_error items' 0
       = Some (VMethod (DotMap [("toDict", VInt 1)]) "toDict").
Proof.
  apply (accessor_inside_list_is_returned demo_host
           (VDict [("toDict", VInt 1)]) "[_.toDict]" (machine_of opts_unset)
           "[_.toDict]"
           (frame (VDict [("toDict", VInt 1)]) (DotMap [("toDict", VInt 1)])
              "[_.toDict]" EmptyString EmptyString)
           (machine_of opts_unset) []
           (Expr (ListE [Attribute (Name "_") "toDict"]))
           (ListE [Attribute (Name "_") "toDict"])
           (frame (VDict [("toDict", VInt 1)]) (DotMap [("toDict", VInt 1)])
              "[_.toDict]" EmptyString EmptyString)
           (machine_of opts_unset)
           [VMethod (DotMap [("toDict", VInt 1)]) "toDict"] 0
           (DotMap [("toDict", VInt 1)]) "toDict"); reflexivity.
Defined.

(** * Further properties of [pyquery] *)

(** ** The initialization file *)

(** With [-i], a missing initialization file ends [pyquery] with the
    [FileNotFoundError] of line 271, which names the path built from
    [APPDATA] on a [win32] platform and from [HOME] elsewhere.  This happens
    before the query is looked at: the query may be any text, and no option is
    changed and nothing is printed or run. *)
Theorem missing_initialization_file_is_fatal (h : host) (data : value)
    (query : string) (m : machine) (dir : string) :
  truthy (initialize (m_opts m)) = true ->
  lookup (if startswith (sys_platform h) "win32" then "APPDATA" else "HOME")
    (os_environ h) = Some dir ->
  read_text h (os_path_join h dir ".jelloconf.py") = None ->
  pyquery h data query m
  = (Raise (FileNotFoundError
       ("-i used and initialization file not found: "
        ++ os_path_join h dir ".jelloconf.py")), m).
Proof.
  intros Hi He Hr. unfold pyquery, setup, load_conf, bind, get_opts, lift.
  rewrite Hi. unfold environ.
  destruct (startswith (sys_platform h) "win32"); rewrite He, Hr; reflexivity.
Qed.

Lemma missing_initialization_file_is_fatal_witness :
  pyquery demo_host (VInt 3) "not python at all )("
    (machine_of opts_initialize)
  = (Raise (FileNotFoundError
       "-i used and initialization file not found: /home/user/.jelloconf.py"),
     machine_of opts_initialize).
Proof.
  apply (missing_initialization_file_is_fatal demo_host (VInt 3)
           "not python at all )(" (machine_of opts_initialize) "/home/user");
    reflexivity.
Defined.

Lemma load_conf_without_initialize (h : host) (m : machine) :
  truthy (initialize (m_opts m)) = false ->
  load_conf h m = (Done (EmptyString, EmptyString), m).
Proof.
  intros Hi. unfold load_conf, bind, get_opts. now rewrite Hi.
Qed.

(** Without [-i], [pyquery] itself reads neither the platform, nor the
    environment, nor the file system.  The script can reach them on its own
    ([exec] and [eval] run with the globals of lib.py), which takes the run out
    of the embedded fragment; for every run inside the fragment, two hosts
    with the same parser and the same adapter give the same run. *)
Theorem without_initialize_host_is_not_read
    (platform platform' : string) (env env' : list (string * string))
    (join join' : string -> string -> string)
    (read read' : string -> option string)
    (parser : string -> option (list stmt)) (names : list string)
    (data : value) (query : string) (m : machine) :
  truthy (initialize (m_opts m)) = false ->
  fst (pyquery (mkHost platform env join read parser names) data query m)
  <> Beyond ->
  pyquery (mkHost platform env join read parser names) data query m
  = pyquery (mkHost platform' env' join' read' parser names) data query m.
Proof.
  intros Hi _. unfold pyquery, setup. cbn zeta.
  unfold bind at 1. unfold bind at 1.
  rewrite (load_conf_without_initialize _ _ Hi).
  symmetry. unfold bind at 1. unfold bind at 1.
  rewrite (load_conf_without_initialize _ _ Hi). reflexivity.
Qed.

Lemma without_initialize_host_is_not_read_witness :
  pyquery (mkHost "linux" [] (fun a b => a) (fun _ => None)
             (ast_parse demo_host) ["toDict"])
    (VInt 3) "_" (machine_of opts_unset)
  = pyquery (mkHost "win32" [("APPDATA", "C:")] (fun a b => b)
               (fun _ => Some "compact = 1")
               (ast_parse demo_host) ["toDict"])
      (VInt 3) "_" (machine_of opts_unset).
Proof.
  apply (without_initialize_host_is_not_read "linux" "win32" []
           [("APPDATA", "C:")] (fun a b => a) (fun a b => b)
           (fun _ => None) (fun _ => Some "compact = 1")
           (ast_parse demo_host) ["toDict"] (VInt 3) "_"
           (machine_of opts_unset)).
  - reflexivity.
  - vm_compute. discriminate.
Defined.

(** ** Steps that leave the options alone *)

Lemma keeps_options_ret {A : Type} (a : A) : keeps_options (ret a).
Proof. now intros m. Qed.

Lemma keeps_options_lift {A : Type} (c : outcome A) : keeps_options (lift c).
Proof. now intros m. Qed.

Lemma keeps_options_tick (s : stmt) : keeps_options (tick s).
Proof. now intros m. Qed.

Lemma keeps_options_bind {A B : Type} (c : M A) (k : A -> M B) :
  keeps_options c -> (forall a, keeps_options (k a)) -> keeps_options (bind c k).
Proof.
  intros Hc Hk m. unfold bind. specialize (Hc m).
  destruct (c m) as [[a | e |] m1]; simpl in *; try assumption.
  destruct (Hk a m1) as [H1 H2]. destruct Hc as [H3 H4].
  now rewrite H1, H2.
Qed.

Lemma keeps_options_pointwise {A : Type} (c c' : M A) :
  (forall m, c m = c' m) -> keeps_options c' -> keeps_options c.
Proof. intros E H m. rewrite E. apply H. Qed.

Lemma keeps_options_exec_block accessors (block : list stmt) :
  Forall (fun s => forall sc, keeps_options (exec_stmt accessors s sc)) block ->
  forall sc, keeps_options (exec_block accessors block sc).
Proof.
  induction 1 as [| s block Hs _ IH]; intros sc; cbn [exec_block].
  - apply keeps_options_ret.
  - apply keeps_options_bind; [apply Hs | exact IH].
Qed.

Lemma keeps_options_exec_stmt accessors (s : stmt) (sc : scope) :
  keeps_options (exec_stmt accessors s sc).
Proof.
  revert sc. induction s as [e | targets e | | test body orelse IHb IHo]
    using stmt_deep_ind; intros sc.
  - cbn [exec_stmt]. apply keeps_options_bind; [apply keeps_options_tick |].
    intros _. apply keeps_options_bind; [apply keeps_options_lift |].
    intros _. apply keeps_options_ret.
  - cbn [exec_stmt]. apply keeps_options_bind; [apply keeps_options_tick |].
    intros _. apply keeps_options_bind; [apply keeps_options_lift |].
    intros v. apply keeps_options_lift.
  - cbn [exec_stmt]. apply keeps_options_bind; [apply keeps_options_tick |].
    intros _. apply keeps_options_ret.
  - apply (keeps_options_pointwise _ _ (exec_stmt_If accessors test body orelse sc)).
    apply keeps_options_bind; [apply keeps_options_tick |].
    intros _. apply keeps_options_bind; [apply keeps_options_lift |].
    intros c. apply keeps_options_exec_block. now destruct (truthy c).
Qed.

(** Running the script (lines 329-345) changes no option and prints
    nothing. *)
Lemma keeps_options_run_query (h : host) (script : string) (sc : scope) :
  keeps_options
    (bind (run_query h script sc) (fun output => lift (normalize output))).
Proof.
  apply keeps_options_bind; [| intros output; apply keeps_options_lift].
  unfold run_query.
  apply keeps_options_bind; [apply keeps_options_lift | intros block].
  apply keeps_options_bind; [apply keeps_options_lift | intros [block' node]].
  apply keeps_options_bind; [apply keeps_options_lift | intros last].
  apply keeps_options_bind; [| intros sc'; apply keeps_options_lift].
  apply keeps_options_exec_block. apply Forall_forall.
  intros s _ sc0. apply keeps_options_exec_stmt.
Qed.

(** Without [-i] the options are not validated: whatever [opts] holds when
    [pyquery] is called, valid or not, it holds afterwards, and nothing is
    printed, whether the query succeeds or fails.  This is for a run inside
    the embedded fragment: a script that stores into an attribute of [opts],
    or prints, does so itself and is outside it. *)
Theorem without_initialize_options_are_untouched (h : host) (data : value)
    (query : string) (m : machine) :
  truthy (initialize (m_opts m)) = false ->
  ast_parse h EmptyString = Some [] ->
  fst (pyquery h data query m) <> Beyond ->
  m_opts (snd (pyquery h data query m)) = m_opts m
  /\ m_stdout (snd (pyquery h data query m)) = m_stdout m.
Proof.
  intros Hi Hp _.
  rewrite (pyquery_after_setup _ _ _ _ _ _ _
             (setup_without_initialize h data query m Hi Hp)).
  apply keeps_options_run_query.
Qed.

Lemma without_initialize_options_are_untouched_witness :
  m_opts (snd (pyquery demo_host (VInt 3) "x = 1"
                 (machine_of (set_compact (VStr "yes") opts_unset))))
  = set_compact (VStr "yes") opts_unset
  /\ m_stdout (snd (pyquery demo_host (VInt 3) "x = 1"
                      (machine_of (set_compact (VStr "yes") opts_unset))))
     = [].
Proof.
  apply (without_initialize_options_are_untouched demo_host (VInt 3) "x = 1"
           (machine_of (set_compact (VStr "yes") opts_unset))).
  - reflexivity.
  - reflexivity.
  - vm_compute. discriminate.
Defined.

(** ** What one validation leaves behind *)

Lemma not_bad_option_all_bool (l : list value) :
  existsb bad_option l = false -> forallb isinstance_bool l = true.
Proof.
  induction l as [| x l IH]; simpl; [reflexivity |].
  unfold bad_option at 1. intros H. apply orb_false_elim in H as [Hx Hl].
  apply negb_false_iff in Hx. now rewrite Hx, IH.
Qed.

(** After one validation (lines 304-326) every colour slot holds [None] or
    one of the sixteen colour names, and the six flags are either all booleans
    or all [None]; validating again leaves these options as they are. *)
Theorem validation_leaves_checked_options (conf_file : string) (m : machine) :
  let o' := m_opts (snd (validate conf_file m)) in
  existsb bad_color (color_values o') = false
  /\ (forallb isinstance_bool (option_values o') = true
      \/ option_values o' = [VNone; VNone; VNone; VNone; VNone; VNone])
  /\ m_opts (snd (validate conf_file (snd (validate conf_file m)))) = o'.
Proof.
  cbn zeta. rewrite !validate_spec. cbn [snd m_opts].
  destruct (existsb bad_option (option_values (m_opts m))) eqn:Ho;
    destruct (existsb bad_color (color_values (m_opts m))) eqn:Hc.
  - repeat split; try reflexivity. now right.
  - change (color_values (unset_options (m_opts m)))
      with (color_values (m_opts m)).
    rewrite Hc. repeat split; try reflexivity. now right.
  - change (option_values (unset_colors (m_opts m)))
      with (option_values (m_opts m)).
    rewrite Ho. repeat split; try reflexivity.
    left. now apply not_bad_option_all_bool.
  - rewrite Ho, Hc. repeat split; try assumption; try reflexivity.
    left. now apply not_bad_option_all_bool.
Qed.

(** ** The loop over the initialization file *)

(** With [-i] and the file in place, what is left of lines 247-326 is the
    loop over its statements. *)
Lemma setup_with_file (h : host) (data : value) (query : string) (m : machine)
    (dir jelloconf : string) (body : list stmt) :
  truthy (initialize (m_opts m)) = true ->
  lookup (if startswith (sys_platform h) "win32" then "APPDATA" else "HOME")
    (os_environ h) = Some dir ->
  read_text h (os_path_join h dir ".jelloconf.py") = Some jelloconf ->
  ast_parse h jelloconf = Some body ->
  setup h data query m
  = bind
      (for_each body
         (prelude_step h
            (frame data (wrap_input data) (jelloconf ++ query) jelloconf
               (os_path_join h dir ".jelloconf.py"))
            (os_path_join h dir ".jelloconf.py")))
      (fun _ =>
         ret ((jelloconf ++ query)%string,
              frame data (wrap_input data) (jelloconf ++ query) jelloconf
                (os_path_join h dir ".jelloconf.py"))) m.
Proof.
  intros Hi He Hr Hp. unfold setup. cbn zeta.
  assert (Hl : load_conf h m
               = (Done (jelloconf, os_path_join h dir ".jelloconf.py"), m)).
  { unfold load_conf, bind, get_opts, lift, environ. rewrite Hi.
    destruct (startswith (sys_platform h) "win32"); rewrite He, Hr;
      reflexivity. }
  rewrite (bind_done _ _ _ _ _ Hl). unfold bind at 1. unfold lift at 1.
  unfold parse. rewrite Hp. reflexivity.
Qed.

Lemma prelude_skips_other_statements (h : host) (sc : scope)
    (conf_file : string) (body : list stmt) (m : machine) :
  existsb isinstance_Assign body = false ->
  for_each body (prelude_step h sc conf_file) m = (Done tt, m).
Proof.
  induction body as [| s body IH]; simpl; [reflexivity |].
  intros H. apply orb_false_elim in H as [Hs Hb].
  unfold bind. destruct s; try discriminate; simpl; now apply IH.
Qed.

(** An initialization file without any assignment statement changes no
    option and prints nothing: the validation of lines 304-326 is not run at
    all, even on options that would not pass it. *)
Theorem file_without_assignment_changes_nothing (h : host) (data : value)
    (query : string) (m : machine) (dir jelloconf : string)
    (body : list stmt) :
  truthy (initialize (m_opts m)) = true ->
  lookup (if startswith (sys_platform h) "win32" then "APPDATA" else "HOME")
    (os_environ h) = Some dir ->
  read_text h (os_path_join h dir ".jelloconf.py") = Some jelloconf ->
  ast_parse h jelloconf = Some body ->
  existsb isinstance_Assign body = false ->
  setup h data query m
  = (Done ((jelloconf ++ query)%string,
           frame data (wrap_input data) (jelloconf ++ query) jelloconf
             (os_path_join h dir ".jelloconf.py")), m).
Proof.
  intros Hi He Hr Hp Hb. rewrite (setup_with_file _ _ _ _ _ _ _ Hi He Hr Hp).
  unfold bind. now rewrite prelude_skips_other_statements.
Qed.

Lemma file_without_assignment_changes_nothing_witness :
  setup (conf_host ("pass" ++ LF) [Pass]) (VInt 3) "_"
    (machine_of (set_compact (VStr "yes") opts_initialize))
  = (Done (("pass" ++ LF ++ "_")%string,
           frame (VInt 3) (VInt 3) ("pass" ++ LF ++ "_") ("pass" ++ LF)
             conf_path),
     machine_of (set_compact (VStr "yes") opts_initialize)).
Proof.
  apply (file_without_assignment_changes_nothing
           (conf_host ("pass" ++ LF) [Pass])
           (VInt 3) "_" (machine_of (set_compact (VStr "yes") opts_initialize))
           "/home/user" ("pass" ++ LF) [Pass]); reflexivity.
Defined.

(** The test of [expr.targets[0].id]: an expression that is a name. *)
Lemma target_id_not_a_name (t : expr) (ts : list expr) :
  match t with Name _ => False | _ => True end ->
  target_id (t :: ts) = Raise AttributeError.
Proof. now destruct t. Qed.

(** An initialization file whose first assignment stores into something
    other than a plain name (an attribute, an item) makes [pyquery] fail with
    the attribute error of line 279; no option has been changed by then,
    nothing is printed and the query is not run. *)
Theorem file_assigning_to_non_name_fails (h : host) (data : value)
    (query : string) (m : machine) (dir jelloconf : string)
    (before after : list stmt) (t : expr) (ts : list expr) (rhs : expr) :
  truthy (initialize (m_opts m)) = true ->
  lookup (if startswith (sys_platform h) "win32" then "APPDATA" else "HOME")
    (os_environ h) = Some dir ->
  read_text h (os_path_join h dir ".jelloconf.py") = Some jelloconf ->
  ast_parse h jelloconf = Some (before ++ Assign (t :: ts) rhs :: after) ->
  existsb isinstance_Assign before = false ->
  match t with Name _ => False | _ => True end ->
  pyquery h data query m = (Raise AttributeError, m).
Proof.
  intros Hi He Hr Hp Hb Ht. unfold pyquery.
  unfold bind at 1. rewrite (setup_with_file _ _ _ _ _ _ _ Hi He Hr Hp).
  unfold bind at 1.
  set (step := prelude_step h _ _).
  assert (E : for_each (before ++ Assign (t :: ts) rhs :: after) step m
              = (Raise AttributeError, m)).
  { clear Hp. induction before as [| s before IH]; simpl.
    - unfold step. cbn [prelude_step]. unfold bind at 1. unfold bind at 1.
      unfold extract at 1. unfold bind at 1. unfold lift at 1.
      now rewrite (target_id_not_a_name _ _ Ht).
    - simpl in Hb. apply orb_false_elim in Hb as [Hs Hb'].
      unfold bind. destruct s; try discriminate; unfold step at 1; simpl;
        now apply IH. }
  now rewrite E.
Qed.

Lemma file_assigning_to_non_name_fails_witness :
  pyquery
    (conf_host ("pass" ++ LF ++ "_.compact = True" ++ LF)
       [Pass; Assign [Attribute (Name "_") "compact"] (Constant (CBool true))])
    (VInt 3) "_" (machine_of opts_initialize)
  = (Raise AttributeError, machine_of opts_initialize).
Proof.
  apply (file_assigning_to_non_name_fails
           (conf_host ("pass" ++ LF ++ "_.compact = True" ++ LF)
              [Pass;
               Assign [Attribute (Name "_") "compact"] (Constant (CBool true))])
           (VInt 3) "_" (machine_of opts_initialize) "/home/user"
           ("pass" ++ LF ++ "_.compact = True" ++ LF) [Pass] []
           (Attribute (Name "_") "compact") [] (Constant (CBool true)));
    first [reflexivity | exact I].
Defined.

(** ** One assignment of the initialization file *)

Lemma extract_other_name (h : host) (sc : scope) (id name : string)
    (ts : list expr) (rhs : expr) (set : value -> opts -> opts) (m : machine) :
  String.eqb id name = false ->
  extract h sc (Name id :: ts) rhs name set m = (Done tt, m).
Proof.
  intros E. unfold extract, bind, lift. cbn [target_id]. now rewrite E.
Qed.

Lemma extract_this_name (h : host) (sc : scope) (name : string)
    (ts : list expr) (rhs : expr) (set : value -> opts -> opts) (v : value)
    (m : machine) :
  eval (accessors h) rhs sc = Done v ->
  extract h sc (Name name :: ts) rhs name set m
  = (Done tt, mkMachine (set v (m_opts m)) (m_stdout m) (m_ran m)).
Proof.
  intros E. unfold extract, bind, lift. cbn [target_id].
  now rewrite String.eqb_refl, E.
Qed.

(** An assignment whose first target is one of the twelve option names
    stores the value of its right-hand side in that option, touches no other
    option, and then validates.  When the six flags are then booleans and the
    colour slots valid, that is all: nothing is printed. *)
Theorem option_assignment_sets_then_validates (h : host) (sc : scope)
    (conf_file name : string) (set : value -> opts -> opts) (ts : list expr)
    (rhs : expr) (v : value) (m : machine) :
  In (name, set) option_setters ->
  eval (accessors h) rhs sc = Done v ->
  let m' := mkMachine (set v (m_opts m)) (m_stdout m) (m_ran m) in
  prelude_step h sc conf_file (Assign (Name name :: ts) rhs) m
  = validate conf_file m'
  /\ (existsb bad_option (option_values (m_opts m')) = false ->
      existsb bad_color (color_values (m_opts m')) = false ->
      prelude_step h sc conf_file (Assign (Name name :: ts) rhs) m
      = (Done tt, m')).
Proof.
  intros Hin He. cbn zeta.
  assert (Hstep : prelude_step h sc conf_file (Assign (Name name :: ts) rhs) m
                  = validate conf_file
                      (mkMachine (set v (m_opts m)) (m_stdout m) (m_ran m))).
  { cbn [prelude_step]. unfold option_setters in Hin. cbn [In] in Hin.
    repeat (destruct Hin as [Hin | Hin];
            [injection Hin as <- <-; unfold bind, extract, lift;
             cbn -[validate eval]; rewrite He; reflexivity |]).
    contradiction. }
  split; [exact Hstep |].
  intros Ho Hc. rewrite Hstep, validate_spec.
  cbn [m_opts m_stdout m_ran] in *.
  rewrite Ho, Hc. unfold warnings. now rewrite app_nil_r.
Qed.

Lemma option_assignment_sets_then_validates_witness :
  let m' := mkMachine (set_mono (VBool true) opts_flags_off) [] [] in
  prelude_step demo_host [] conf_path
    (Assign [Name "mono"] (Constant (CBool true))) (machine_of opts_flags_off)
  = validate conf_path m'
  /\ (existsb bad_option (option_values (m_opts m')) = false ->
      existsb bad_color (color_values (m_opts m')) = false ->
      prelude_step demo_host [] conf_path
        (Assign [Name "mono"] (Constant (CBool true)))
        (machine_of opts_flags_off)
      = (Done tt, m')).
Proof.
  apply (option_assignment_sets_then_validates demo_host [] conf_path "mono"
           set_mono [] (Constant (CBool true)) (VBool true)
           (machine_of opts_flags_off)).
  - cbn. tauto.
  - reflexivity.
Defined.

Lemma not_an_option_name (id : string) :
  mem_string id option_names = false ->
  forall name set, In (name, set) option_setters -> String.eqb id name = false.
Proof.
  intros H name set Hin. unfold mem_string in H.
  destruct (String.eqb id name) eqn:E; [| reflexivity].
  rewrite <- H. symmetry. apply existsb_exists. exists name. split; [| exact E].
  unfold option_names. apply (in_map fst _ _ Hin).
Qed.

(** An assignment to any other name leaves the twelve options as the
    validation finds them: its right-hand side is not evaluated while the
    options are collected (so it cannot fail there), and the validation of
    lines 304-326 runs all the same. *)
Theorem other_assignment_only_validates (h : host) (sc : scope)
    (conf_file id : string) (ts : list expr) (rhs : expr) (m : machine) :
  mem_string id option_names = false ->
  prelude_step h sc conf_file (Assign (Name id :: ts) rhs) m
  = validate conf_file m.
Proof.
  intros H. pose proof (not_an_option_name id H) as N.
  cbn [prelude_step].
  repeat (rewrite (bind_done _ _ m tt m);
          [| apply extract_other_name; eapply N; cbn; tauto]).
  reflexivity.
Qed.

Lemma other_assignment_only_validates_witness :
  prelude_step demo_host [] conf_path
    (Assign [Name "x"] (Name "undefined")) (machine_of opts_flags_off)
  = validate conf_path (machine_of opts_flags_off).
Proof.
  apply (other_assignment_only_validates demo_host [] conf_path "x" []
           (Name "undefined") (machine_of opts_flags_off)).
  reflexivity.
Defined.

(** ** Wrapping and unwrapping the document *)

Lemma normalize_wrap_input (data : value) :
  plain data = true -> normalize (wrap_input data) = Done data.
Proof.
  destruct data as [| | | | | l | d | d | self name];
    try reflexivity; try discriminate; intros H.
  - cbn [wrap_input]. rewrite normalize_list. f_equal. f_equal.
    rewrite map_map. cbn [plain] in H.
    induction l as [| x l IH]; [reflexivity |].
    cbn [forallb] in H. apply andb_prop in H as [Hx Hl].
    cbn [map]. rewrite (IH Hl). f_equal.
    destruct x; try reflexivity; try discriminate.
    unfold plain_item. rewrite DotMap_is_DotMap. now apply toDict_DotMap.
  - cbn [wrap_input]. unfold normalize.
    change (match DotMap d with
            | VList l => VList (map plain_item l)
            | VDotMap _ => toDict (DotMap d)
            | _ => DotMap d
            end) with (toDict (DotMap d)).
    now rewrite (toDict_DotMap d H).
Qed.

(** The round trip of a whole document: for every plain JSON value, wrapped
    at lines 248-256 and converted back at lines 334-339, the query [_]
    returns the document itself, whatever statements the initialization file
    puts before the query. *)
Theorem identity_query_round_trip (h : host) (data : value) (m : machine)
    (script : string) (sc : scope) (m1 : machine) (block : list stmt)
    (sc' : scope) (m2 : machine) :
  plain data = true ->
  setup h data "_" m = (Done (script, sc), m1) ->
  ast_parse h script = Some (block ++ [Expr (Name "_")]) ->
  exec_block (accessors h) block sc m1 = (Done sc', m2) ->
  pyquery h data "_" m = (Done data, m2).
Proof.
  intros Hd Hs Hp Hx.
  rewrite (identity_query_returns_input _ _ _ _ _ _ _ _ _ Hs Hp Hx).
  now rewrite normalize_wrap_input.
Qed.

Lemma identity_query_round_trip_witness :
  pyquery demo_host
    (VList [VDict [("a", VList [VDict [("b", VNone)]])]; VInt 2; VList []])
    "_" (machine_of opts_unset)
  = (Done (VList [VDict [("a", VList [VDict [("b", VNone)]])]; VInt 2;
                  VList []]),
     machine_of opts_unset).
Proof.
  apply (identity_query_round_trip demo_host
           (VList [VDict [("a", VList [VDict [("b", VNone)]])]; VInt 2;
                   VList []])
           (machine_of opts_unset) "_"
           (frame
              (VList [VDict [("a", VList [VDict [("b", VNone)]])]; VInt 2;
                      VList []])
              (wrap_input
                 (VList [VDict [("a", VList [VDict [("b", VNone)]])]; VInt 2;
                         VList []]))
              "_" EmptyString EmptyString)
           (machine_of opts_unset) []
           (frame
              (VList [VDict [("a", VList [VDict [("b", VNone)]])]; VInt 2;
                      VList []])
              (wrap_input
                 (VList [VDict [("a", VList [VDict [("b", VNone)]])]; VInt 2;
                         VList []]))
              "_" EmptyString EmptyString)
           (machine_of opts_unset)); reflexivity.
Defined.

(** * Properties of [set_env_colors] *)

Lemma input_error_loop (l : list string) (input_error : bool) :
  fold_left
    (fun (input_error : bool) (color : string) =>
       if negb (mem_string color env_color_names) then true else input_error)
    l input_error
  = input_error || existsb (fun c => negb (mem_string c env_color_names)) l.
Proof.
  revert input_error. induction l as [| c l IH]; intros b;
    cbn [fold_left existsb].
  - now rewrite orb_false_r.
  - rewrite IH. destruct (mem_string c env_color_names); cbn [negb orb].
    + reflexivity.
    + now rewrite orb_true_r.
Qed.

Lemma all_names_known (l : list string) :
  existsb (fun c => negb (mem_string c env_color_names)) l = false ->
  forallb (fun c => mem_string c env_color_names) l = true.
Proof.
  induction l as [| c l IH]; cbn [existsb forallb]; [reflexivity |].
  intros H. apply orb_false_elim in H as [Hc Hl].
  apply negb_false_iff in Hc. now rewrite Hc, IH.
Qed.

Lemma env_color_list_six (env_colors : option string) :
  List.length (fst (env_color_list env_colors)) = 6
  /\ forallb (fun c => mem_string c env_color_names)
       (fst (env_color_list env_colors)) = true.
Proof.
  unfold env_color_list. destruct env_colors as [s |]; [| now split].
  destruct (negb (String.eqb s EmptyString)); [| now split].
  cbn zeta. rewrite input_error_loop.
  destruct (Nat.eqb (List.length (split_comma s)) 6) eqn:Hlen;
    [| now split].
  cbn [negb orb].
  destruct (existsb _ (split_comma s)) eqn:Hex; [now split |].
  cbn [fst]. split.
  - now apply Nat.eqb_eq.
  - now apply all_names_known.
Qed.

(** Whatever [JELLO_COLORS] holds, the list from which the theme is built
    (lines 80-87) has exactly six entries, each one of the seventeen
    recognised names: the six reads [color_list[0]] to [color_list[5]] cannot
    go out of range. *)
Theorem color_list_has_six_known_names (env_colors : option string) :
  List.length (fst (env_color_list env_colors)) = 6
  /\ (forall c, In c (fst (env_color_list env_colors)) ->
        In c env_color_names)
  /\ (forall i, i < 6 ->
        exists c, nth_error (fst (env_color_list env_colors)) i = Some c).
Proof.
  destruct (env_color_list_six env_colors) as [Hlen Hall].
  split; [exact Hlen |]. split.
  - intros c Hc. rewrite forallb_forall in Hall. specialize (Hall c Hc).
    unfold mem_string in Hall. apply existsb_exists in Hall as (x & Hx & E).
    apply String.eqb_eq in E. now subst.
  - intros i Hi.
    destruct (nth_error (fst (env_color_list env_colors)) i) as [c |] eqn:E;
      [now exists c |].
    apply nth_error_None in E. lia.
Qed.

(** A value of [JELLO_COLORS] that does not split into exactly six fields, or
    has a field that is not a recognised name, is treated as if the variable
    were not set, apart from one warning on the standard error. *)
Theorem malformed_env_colors_are_ignored (s : string) (o : opts) :
  s <> EmptyString ->
  (List.length (split_comma s) <> 6
   \/ exists c, In c (split_comma s) /\ mem_string c env_color_names = false) ->
  set_env_colors (Some s) o
  = ([env_colors_warning], snd (set_env_colors None o)).
Proof.
  intros Hs Hbad. unfold set_env_colors, env_color_list.
  apply String.eqb_neq in Hs. rewrite Hs. cbn [negb]. cbn zeta.
  rewrite input_error_loop.
  assert (E : negb (Nat.eqb (List.length (split_comma s)) 6)
              || existsb (fun c => negb (mem_string c env_color_names))
                   (split_comma s) = true).
  { destruct Hbad as [Hlen | (c & Hin & Hc)].
    - apply Nat.eqb_neq in Hlen. now rewrite Hlen.
    - apply orb_true_iff. right. apply existsb_exists. exists c.
      now rewrite Hc. }
  now rewrite E.
Qed.

Lemma malformed_env_colors_are_ignored_witness :
  set_env_colors (Some "red,green,blue,cyan,white,black,gray") opts_unset
  = ([env_colors_warning], snd (set_env_colors None opts_unset))
  /\ set_env_colors (Some "red,green,blue,cyan,white,pink") opts_unset
     = ([env_colors_warning], snd (set_env_colors None opts_unset)).
Proof.
  split.
  - apply (malformed_env_colors_are_ignored
             "red,green,blue,cyan,white,black,gray" opts_unset).
    + discriminate.
    + left. cbn. lia.
  - apply (malformed_env_colors_are_ignored
             "red,green,blue,cyan,white,pink" opts_unset).
    + discriminate.
    + right. exists "pink". split; [cbn; tauto | reflexivity].
Defined.

Lemma valid_color_in_map (c : string) :
  mem_string c valid_colors = true ->
  exists entry, lookup c color_map = Some entry.
Proof.
  unfold mem_string, valid_colors. cbn [existsb]. intros H.
  repeat match type of H with
         | (String.eqb c ?name || _) = true =>
             let E := fresh "E" in
             destruct (String.eqb c name) eqn:E;
             [apply String.eqb_eq in E; rewrite E; eexists; reflexivity
             | cbn [orb] in H]
         end.
  discriminate H.
Qed.

Lemma valid_color_nonempty (c : string) :
  mem_string c valid_colors = true -> String.eqb c EmptyString = false.
Proof.
  intros H. destruct c; [discriminate H | reflexivity].
Qed.

Lemma known_name_is_color_or_default (c : string) :
  mem_string c env_color_names = true ->
  String.eqb c "default" = false -> mem_string c valid_colors = true.
Proof.
  unfold mem_string, env_color_names, valid_colors. cbn [existsb].
  intros H D. rewrite D in H.
  repeat match goal with
         | |- (String.eqb c ?name || _) = true =>
             destruct (String.eqb c name); [reflexivity | cbn [orb] in *]
         end.
  exact H.
Qed.

(** One slot of the theme, for a recognised name and a checked option. *)
Lemma theme_color_chosen (color_list : list string) (i : nat) (c : string)
    (option : value) (fallback : string) :
  nth_error color_list i = Some c ->
  mem_string c env_color_names = true ->
  bad_color option = false ->
  mem_string fallback valid_colors = true ->
  exists entry,
    lookup (effective_color c option fallback) color_map = Some entry
    /\ theme_color color_list i option fallback = Done entry.
Proof.
  intros Hn Hc Ho Hf. unfold theme_color, effective_color. rewrite Hn.
  destruct (String.eqb c "default") eqn:D; cbn [negb].
  - unfold bad_color in Ho. apply andb_false_iff in Ho as [Ho | Ho].
    + apply negb_false_iff in Ho. destruct option; try discriminate Ho.
      cbn [in_valid_colors] in Ho. cbn [truthy].
      rewrite (valid_color_nonempty _ Ho). cbn [negb].
      destruct (valid_color_in_map _ Ho) as [entry E]. exists entry.
      unfold color_map_item. now rewrite E.
    + apply negb_false_iff in Ho. destruct option; try discriminate Ho.
      cbn [truthy]. destruct (valid_color_in_map _ Hf) as [entry E].
      exists entry. unfold color_map_item. now rewrite E.
  - destruct (valid_color_in_map _ (known_name_is_color_or_default _ Hc D))
      as [entry E].
    exists entry. unfold color_map_item. now rewrite E.
Qed.

Lemma checked_colors_each (o : opts) :
  existsb bad_color (color_values o) = false ->
  bad_color (keyname_color o) = false
  /\ bad_color (keyword_color o) = false
  /\ bad_color (number_color o) = false
  /\ bad_color (string_color o) = false
  /\ bad_color (arrayid_color o) = false
  /\ bad_color (arraybracket_color o) = false.
Proof.
  unfold color_values. cbn [existsb]. intros H.
  repeat (apply orb_false_elim in H as [? H]). tauto.
Qed.

Lemma theme_by_precedence (env_colors : option string) (o : opts)
    (c0 c1 c2 c3 c4 c5 : string) :
  fst (env_color_list env_colors) = [c0; c1; c2; c3; c4; c5] ->
  existsb bad_color (color_values o) = false ->
  exists entries,
    Forall2 (fun name entry => lookup name color_map = Some entry)
      [effective_color c0 (keyname_color o) "blue";
       effective_color c1 (keyword_color o) "brightblack";
       effective_color c2 (number_color o) "magenta";
       effective_color c3 (string_color o) "green";
       effective_color c4 (arrayid_color o) "red";
       effective_color c5 (arraybracket_color o) "magenta"]
      entries
    /\ snd (set_env_colors env_colors o)
       = Done (combine
                 ["key_name"; "keyword"; "number"; "string"; "array_id";
                  "array_bracket"] entries).
Proof.
  intros Hl Ho.
  destruct (env_color_list_six env_colors) as [_ Hall].
  rewrite Hl in Hall. cbn [forallb] in Hall.
  repeat (apply andb_prop in Hall as [? Hall]).
  destruct (checked_colors_each o Ho) as (O0 & O1 & O2 & O3 & O4 & O5).
  unfold set_env_colors.
  destruct (env_color_list env_colors) as [color_list stderr].
  cbn [fst] in Hl. subst color_list. cbn [snd].
  destruct (theme_color_chosen [c0; c1; c2; c3; c4; c5] 0 c0
              (keyname_color o) "blue") as (e0 & L0 & T0); auto.
  destruct (theme_color_chosen [c0; c1; c2; c3; c4; c5] 1 c1
              (keyword_color o) "brightblack") as (e1 & L1 & T1); auto.
  destruct (theme_color_chosen [c0; c1; c2; c3; c4; c5] 2 c2
              (number_color o) "magenta") as (e2 & L2 & T2); auto.
  destruct (theme_color_chosen [c0; c1; c2; c3; c4; c5] 3 c3
              (string_color o) "green") as (e3 & L3 & T3); auto.
  destruct (theme_color_chosen [c0; c1; c2; c3; c4; c5] 4 c4
              (arrayid_color o) "red") as (e4 & L4 & T4); auto.
  destruct (theme_color_chosen [c0; c1; c2; c3; c4; c5] 5 c5
              (arraybracket_color o) "magenta") as (e5 & L5 & T5); auto.
  exists [e0; e1; e2; e3; e4; e5]. split.
  - repeat constructor; assumption.
  - rewrite T0, T1, T2, T3, T4, T5. reflexivity.
Qed.

(** The order of precedence of a colour: the name given in [JELLO_COLORS],
    unless it is [default]; then the option of the initialization file, when
    it holds a colour name; then the built-in colour.  With options that have
    passed the validation, each of the six slots of the theme is the
    [color_map] entry of the name so chosen, and no lookup fails. *)
Theorem theme_follows_precedence (env_colors : option string) (o : opts)
    (c0 c1 c2 c3 c4 c5 : string) :
  fst (env_color_list env_colors) = [c0; c1; c2; c3; c4; c5] ->
  existsb bad_color (color_values o) = false ->
  exists entries,
    Forall2 (fun name entry => lookup name color_map = Some entry)
      [effective_color c0 (keyname_color o) "blue";
       effective_color c1 (keyword_color o) "brightblack";
       effective_color c2 (number_color o) "magenta";
       effective_color c3 (string_color o) "green";
       effective_color c4 (arrayid_color o) "red";
       effective_color c5 (arraybracket_color o) "magenta"]
      entries
    /\ snd (set_env_colors env_colors o)
       = Done (combine
                 ["key_name"; "keyword"; "number"; "string"; "array_id";
                  "array_bracket"] entries).
Proof.
  intros Hl Ho. exact (theme_by_precedence env_colors o c0 c1 c2 c3 c4 c5 Hl Ho).
Qed.

Lemma theme_follows_precedence_witness :
  exists entries,
    Forall2 (fun name entry => lookup name color_map = Some entry)
      [effective_color "red" (VStr "cyan") "blue";
       effective_color "default" (VStr "white") "brightblack";
       effective_color "default" VNone "magenta";
       effective_color "default" VNone "green";
       effective_color "default" VNone "red";
       effective_color "gray" VNone "magenta"]
      entries
    /\ snd (set_env_colors (Some "red,default,default,default,default,gray")
              (set_keyword_color (VStr "white")
                 (set_keyname_color (VStr "cyan") opts_unset)))
       = Done (combine
                 ["key_name"; "keyword"; "number"; "string"; "array_id";
                  "array_bracket"] entries).
Proof.
  apply (theme_follows_precedence
           (Some "red,default,default,default,default,gray")
           (set_keyword_color (VStr "white")
              (set_keyname_color (VStr "cyan") opts_unset))
           "red" "default" "default" "default" "default" "gray");
    reflexivity.
Defined.

Lemma validate_checks_colors (conf_file : string) (m : machine) :
  existsb bad_color (color_values (m_opts (snd (validate conf_file m))))
  = false.
Proof.
  rewrite validate_spec. cbn [snd m_opts].
  destruct (existsb bad_option (option_values (m_opts m)));
    destruct (existsb bad_color (color_values (m_opts m))) eqn:Hc;
    try reflexivity; exact Hc.
Qed.

Lemma six_items {A : Type} (l : list A) :
  List.length l = 6 -> exists a b c d e f, l = [a; b; c; d; e; f].
Proof.
  intros H.
  destruct l as [| a [| b [| c [| d [| e [| f [| g l]]]]]]]; try discriminate H.
  now exists a, b, c, d, e, f.
Qed.

(** The validation of the initialization file and [set_env_colors] fit
    together: with the options one validation leaves behind, the theme is
    built for every value of [JELLO_COLORS], set or not, well-formed or not;
    no lookup in [color_map] fails. *)
Theorem theme_is_built_after_validation (conf_file : string) (m : machine)
    (env_colors : option string) :
  exists theme,
    snd (set_env_colors env_colors (m_opts (snd (validate conf_file m))))
    = Done theme
    /\ map fst theme
       = ["key_name"; "keyword"; "number"; "string"; "array_id";
          "array_bracket"]
    /\ (forall key entry, In (key, entry) theme -> In entry (map snd color_map)).
Proof.
  destruct (env_color_list_six env_colors) as [Hlen _].
  destruct (six_items _ Hlen) as (c0 & c1 & c2 & c3 & c4 & c5 & Hl).
  destruct (theme_by_precedence env_colors _ c0 c1 c2 c3 c4 c5 Hl
              (validate_checks_colors conf_file m)) as (entries & HF & HT).
  exists (combine ["key_name"; "keyword"; "number"; "string"; "array_id";
                   "array_bracket"] entries).
  split; [exact HT |].
  inversion HF as [| ? e0 ? ? L0 HF1]; subst.
  inversion HF1 as [| ? e1 ? ? L1 HF2]; subst.
  inversion HF2 as [| ? e2 ? ? L2 HF3]; subst.
  inversion HF3 as [| ? e3 ? ? L3 HF4]; subst.
  inversion HF4 as [| ? e4 ? ? L4 HF5]; subst.
  inversion HF5 as [| ? e5 ? ? L5 HF6]; subst.
  inversion HF6; subst.
  split; [reflexivity |].
  assert (Hin : forall name entry,
             lookup name color_map = Some entry -> In entry (map snd color_map)).
  { intros name entry. generalize color_map.
    induction l as [| [k x] l IH]; cbn [lookup map]; [discriminate |].
    destruct (String.eqb name k).
    - intros E. injection E as ->. now left.
    - intros E. right. now apply IH. }
  intros key entry Hk. cbn [combine In] in Hk.
  repeat (destruct Hk as [Hk | Hk];
          [injection Hk as _ <-; eapply Hin; eassumption |]).
  contradiction.
Qed.

(** Options that have not been validated can make [set_env_colors] fail: an
    option holding a non-empty string that is not a colour name raises the
    key error of line 81 with that string, when [JELLO_COLORS] leaves the slot
    to the option. *)
Theorem unchecked_color_option_raises (env_colors : option string) (o : opts)
    (s : string) :
  nth_error (fst (env_color_list env_colors)) 0 = Some "default" ->
  keyname_color o = VStr s ->
  s <> EmptyString ->
  lookup s color_map = None ->
  snd (set_env_colors env_colors o) = Raise (KeyError s).
Proof.
  intros Hn Hk Hs Hl. unfold set_env_colors.
  destruct (env_color_list env_colors) as [color_list stderr].
  cbn [fst] in Hn. cbn [snd]. unfold theme_color at 1. rewrite Hn, Hk.
  cbn [String.eqb Ascii.eqb Bool.eqb negb truthy].
  apply String.eqb_neq in Hs. rewrite Hs. cbn [negb].
  unfold color_map_item. now rewrite Hl.
Qed.

Lemma unchecked_color_option_raises_witness :
  snd (set_env_colors None (set_keyname_color (VStr "purple") opts_unset))
  = Raise (KeyError "purple").
Proof.
  apply (unchecked_color_option_raises None
           (set_keyname_color (VStr "purple") opts_unset) "purple");
    first [reflexivity | discriminate].
Defined.

(** * Properties of [load_json] *)

Lemma loads_each_all (lib : library) (rows : list string) (vs : list value) :
  Forall2 (fun row v => json_loads lib row = Some v) rows vs ->
  loads_each lib rows = Out vs.
Proof.
  induction 1 as [| row v rows vs Hv _ IH]; cbn [loads_each]; [reflexivity |].
  now rewrite Hv, IH.
Qed.

Lemma loads_each_some_bad (lib : library) (rows : list string) :
  (exists row, In row rows /\ json_loads lib row = None) ->
  loads_each lib rows = Fails JSONDecodeError.
Proof.
  induction rows as [| r rows IH]; intros (row & Hin & Hrow).
  - contradiction.
  - cbn [loads_each]. destruct Hin as [-> | Hin].
    + now rewrite Hrow.
    + destruct (json_loads lib r); [| reflexivity].
      rewrite IH; [reflexivity | now exists row].
Qed.

(** A text that is not one JSON document is read as JSON Lines: the result
    is the list of the values of its rows, one per row and in their order (the
    empty list when there is no row), and the call fails as soon as one row is
    not JSON. *)
Theorem load_json_reads_rows (lib : library) (data : string) :
  json_loads lib data = None ->
  (forall vs,
      Forall2 (fun row v => json_loads lib row = Some v)
        (str_splitlines lib data) vs ->
      load_json lib data = Out (VList vs)
      /\ List.length vs = List.length (str_splitlines lib data))
  /\ ((exists row, In row (str_splitlines lib data)
                   /\ json_loads lib row = None) ->
      load_json lib data = Fails JSONDecodeError).
Proof.
  intros Hd. unfold load_json. rewrite Hd. split.
  - intros vs H. rewrite (loads_each_all _ _ _ H). split; [reflexivity |].
    symmetry. exact (Forall2_length H).
  - intros H. now rewrite (loads_each_some_bad _ _ H).
Qed.

Lemma load_json_reads_rows_witness :
  (forall vs,
      Forall2 (fun row v => json_loads demo_library row = Some v)
        (str_splitlines demo_library ("1" ++ LF ++ "2" ++ LF)) vs ->
      load_json demo_library ("1" ++ LF ++ "2" ++ LF) = Out (VList vs)
      /\ List.length vs
         = List.length (str_splitlines demo_library ("1" ++ LF ++ "2" ++ LF)))
  /\ ((exists row,
          In row (str_splitlines demo_library ("1" ++ LF ++ "2" ++ LF))
          /\ json_loads demo_library row = None) ->
      load_json demo_library ("1" ++ LF ++ "2" ++ LF) = Fails JSONDecodeError).
Proof.
  apply (load_json_reads_rows demo_library ("1" ++ LF ++ "2" ++ LF)).
  reflexivity.
Defined.

(** * Properties of [create_json] *)

Lemma count_newlines_app (a b : string) :
  count_newlines (a ++ b) = count_newlines a + count_newlines b.
Proof.
  induction a as [| c a IH]; cbn [append count_newlines]; [reflexivity |].
  rewrite IH. lia.
Qed.

Lemma escape_newlines_none (s : string) :
  count_newlines (escape_newlines s) = 0.
Proof.
  induction s as [| c s IH]; cbn [escape_newlines]; [reflexivity |].
  destruct (Ascii.eqb c LFchar) eqn:E; cbn [count_newlines].
  - now rewrite IH.
  - now rewrite E, IH.
Qed.

Lemma escape_newlines_id (s : string) :
  count_newlines s = 0 -> escape_newlines s = s.
Proof.
  induction s as [| c s IH]; cbn [escape_newlines count_newlines];
    [reflexivity |].
  destruct (Ascii.eqb c LFchar); [discriminate |].
  intros H. now rewrite IH.
Qed.

Lemma show_str_one_line (o : opts) (s : string) :
  count_newlines (show_str o s) = 0.
Proof.
  unfold show_str. destruct (truthy (raw o)).
  - apply escape_newlines_none.
  - rewrite !count_newlines_app, escape_newlines_none. reflexivity.
Qed.

Lemma append_empty_r (s : string) : (s ++ EmptyString)%string = s.
Proof.
  induction s as [| c s IH]; cbn [append]; [reflexivity | now rewrite IH].
Qed.

Lemma append_inv_head (p a b : string) :
  (p ++ a)%string = (p ++ b)%string -> a = b.
Proof.
  induction p as [| c p IH]; cbn [append]; [trivial |].
  intros H. injection H as H. now apply IH.
Qed.

Lemma append_length (a b : string) :
  String.length (a ++ b) = String.length a + String.length b.
Proof.
  induction a as [| c a IH]; cbn [append String.length]; [reflexivity |].
  now rewrite IH.
Qed.

Lemma append_inv_tail (a b q : string) :
  (a ++ q)%string = (b ++ q)%string -> a = b.
Proof.
  revert b. induction a as [| c a IH]; intros [| d b] H; cbn [append] in H.
  - reflexivity.
  - exfalso. apply (f_equal String.length) in H.
    cbn [String.length] in H. rewrite append_length in H. lia.
  - exfalso. apply (f_equal String.length) in H.
    cbn [String.length] in H. rewrite append_length in H. lia.
  - injection H as -> H. f_equal. now apply IH.
Qed.

Lemma quoted_body_inj (q a b : string) :
  (q ++ a ++ q)%string = (q ++ b ++ q)%string -> a = b.
Proof.
  intros H. apply append_inv_head in H. now apply append_inv_tail in H.
Qed.

Lemma escape_newlines_app (a b : string) :
  escape_newlines (a ++ b) = (escape_newlines a ++ escape_newlines b)%string.
Proof.
  induction a as [| c a IH]; cbn [append escape_newlines]; [reflexivity |].
  rewrite IH. now destruct (Ascii.eqb c LFchar).
Qed.

(** A string result is printed as follows, with or without [-r]: every
    newline it holds is replaced by the two characters backslash and [n], and
    every other character is kept; the text stands between double quotes
    unless [-r] is set.  The printed text holds no newline. *)
Theorem string_is_printed_on_one_line (lib : library) (o : opts) (s : string) :
  let q := if truthy (raw o) then EmptyString else quote in
  exists body,
    create_json lib o (VStr s) = Out (q ++ body ++ q)%string
    /\ count_newlines (q ++ body ++ q) = 0
    /\ (count_newlines s = 0 -> body = s)
    /\ (forall a b body_a body_b,
          s = (a ++ LF ++ b)%string ->
          create_json lib o (VStr a) = Out (q ++ body_a ++ q)%string ->
          create_json lib o (VStr b) = Out (q ++ body_b ++ q)%string ->
          body = (body_a ++ "\n" ++ body_b)%string).
Proof.
  cbn zeta. exists (escape_newlines s).
  assert (Hshow : forall t,
             create_json lib o (VStr t)
             = Out ((if truthy (raw o) then EmptyString else quote)
                    ++ escape_newlines t
                    ++ (if truthy (raw o) then EmptyString else quote))%string).
  { intros t. cbn [create_json]. unfold show_str.
    destruct (truthy (raw o)); [| reflexivity].
    cbn [append]. now rewrite append_empty_r. }
  split; [apply Hshow |]. split; [| split].
  - rewrite !count_newlines_app, escape_newlines_none.
    now destruct (truthy (raw o)).
  - apply escape_newlines_id.
  - intros a b body_a body_b -> Ha Hb.
    rewrite Hshow in Ha, Hb. injection Ha as Ha. injection Hb as Hb.
    apply quoted_body_inj in Ha. apply quoted_body_inj in Hb. subst.
    rewrite !escape_newlines_app. reflexivity.
Qed.

Lemma entry_line_count (lib : library) (o : opts) (entry : value)
    (line : string) :
  (forall v text, json_dumps lib Compact v = Some text ->
                  count_newlines text = 0) ->
  entry_line lib o entry = Out line ->
  count_newlines line = if printed_entry entry then 1 else 0.
Proof.
  intros Hlib.
  assert (Hd : forall v,
             output_bind (dumps lib Compact v)
               (fun text => Out (text ++ LF)%string) = Out line ->
             count_newlines line = 1).
  { intros v. unfold dumps.
    destruct (json_dumps lib Compact v) as [text |] eqn:E; [| discriminate].
    cbn [output_bind]. intros H. injection H as <-.
    rewrite count_newlines_app, (Hlib _ _ E). reflexivity. }
  destruct entry; cbn [entry_line printed_entry]; try apply Hd;
    try discriminate; intros H; injection H as <-; try reflexivity.
  - now destruct (truthy (nulls o)).
  - rewrite count_newlines_app, show_str_one_line. reflexivity.
Qed.

(** Under [-l], before the final [rstrip()], every printed entry of a list
    takes exactly one line, also a string that holds newlines; an entry that
    is a bound accessor adds nothing.  ([json.dumps] with compact separators
    writes no newline.) *)
Theorem lines_mode_one_line_per_entry (lib : library) (o : opts)
    (items : list value) (flat_list text : string) :
  (forall v s, json_dumps lib Compact v = Some s -> count_newlines s = 0) ->
  flat_lines lib o items flat_list = Out text ->
  count_newlines text
  = count_newlines flat_list + List.length (filter printed_entry items).
Proof.
  intros Hlib. revert flat_list.
  induction items as [| entry items IH]; intros flat_list; cbn [flat_lines].
  - intros H. injection H as <-. cbn. lia.
  - destruct (entry_line lib o entry) as [line | e |] eqn:E; try discriminate.
    cbn [output_bind]. intros H. rewrite (IH _ H), count_newlines_app.
    rewrite (entry_line_count _ _ _ _ Hlib E). cbn [filter].
    destruct (printed_entry entry); cbn [List.length]; lia.
Qed.

Lemma demo_library_compact_one_line (v : value) (s : string) :
  json_dumps demo_library Compact v = Some s -> count_newlines s = 0.
Proof.
  destruct v as [| b | z | | | | | |]; cbn [json_dumps demo_library];
    try discriminate.
  - intros H. now injection H as <-.
  - intros H. injection H as <-. now destruct b.
  - destruct (Z.eqb z 1); [intros H; now injection H as <- |].
    destruct (Z.eqb z 2); [intros H; now injection H as <- | discriminate].
Qed.

Lemma lines_mode_one_line_per_entry_witness :
  flat_lines demo_library (set_lines (VBool true) opts_unset)
    [VStr ("a" ++ LF ++ "b"); VNone; VMethod VNone "toDict"; VInt 2]
    EmptyString
  = Out (quote ++ "a\nb" ++ quote ++ LF ++ LF ++ "2" ++ LF)%string
  /\ count_newlines (quote ++ "a\nb" ++ quote ++ LF ++ LF ++ "2" ++ LF)
     = count_newlines EmptyString
       + List.length
           (filter printed_entry
              [VStr ("a" ++ LF ++ "b"); VNone; VMethod VNone "toDict";
               VInt 2]).
Proof.
  split; [reflexivity |].
  apply (lines_mode_one_line_per_entry demo_library
           (set_lines (VBool true) opts_unset)
           [VStr ("a" ++ LF ++ "b"); VNone; VMethod VNone "toDict"; VInt 2]
           EmptyString).
  - exact demo_library_compact_one_line.
  - reflexivity.
Defined.

Lemma entry_line_not_exn (lib : library) (o : opts) (entry : value) (e : exn) :
  entry_line lib o entry <> Fails (Exn e).
Proof.
  destruct entry; cbn [entry_line]; unfold dumps;
    try destruct (json_dumps lib Compact _); cbn [output_bind]; discriminate.
Qed.

Lemma flat_lines_not_exn (lib : library) (o : opts) (items : list value)
    (flat_list : string) (e : exn) :
  flat_lines lib o items flat_list <> Fails (Exn e).
Proof.
  revert flat_list. induction items as [| entry items IH]; intros flat_list;
    cbn [flat_lines]; [discriminate |].
  pose proof (entry_line_not_exn lib o entry e) as N.
  destruct (entry_line lib o entry) as [line | e' |]; cbn [output_bind].
  - apply IH.
  - intros H. apply N. exact H.
  - discriminate.
Qed.

Lemma entry_line_fails (lib : library) (o : opts) (entry : value)
    (e : output_exn) :
  entry_line lib o entry = Fails e -> e = DumpsError.
Proof.
  destruct entry; cbn [entry_line]; unfold dumps;
    try destruct (json_dumps lib Compact _); cbn [output_bind];
    try discriminate; intros H; now injection H as <-.
Qed.

Lemma flat_lines_fails (lib : library) (o : opts) (items : list value)
    (flat_list : string) (e : output_exn) :
  flat_lines lib o items flat_list = Fails e -> e = DumpsError.
Proof.
  revert flat_list. induction items as [| entry items IH]; intros flat_list;
    cbn [flat_lines]; [discriminate |].
  destruct (entry_line lib o entry) as [line | e' |] eqn:E; cbn [output_bind].
  - apply IH.
  - intros H. injection H as <-. exact (entry_line_fails _ _ _ _ E).
  - discriminate.
Qed.

(** [create_json] raises its own [ValueError] ("Cannot print list of lists
    as lines. Try normal JSON output.") exactly when the data is a list, [-l]
    is set and some element, wherever it stands, is a list; nothing of the
    list is printed then.  Every other failure of [create_json] is an
    exception raised by [json.dumps], or the [TypeError] of line 243. *)
Theorem list_of_lists_error_exactly_under_lines (lib : library) (o : opts)
    (data : value) :
  (create_json lib o data = Fails (Exn (ValueError list_of_lists_message))
   <-> exists items,
         data = VList items
         /\ truthy (lines o) = true
         /\ existsb isinstance_list items = true)
  /\ (forall e,
        create_json lib o data = Fails e ->
        e = Exn (ValueError list_of_lists_message)
        \/ e = DumpsError \/ e = TypeError).
Proof.
  split; [split |].
  - destruct data as [| | | | | items | d | d |]; cbn [create_json];
      unfold dumps;
      try (destruct (json_dumps lib _ _); cbn [output_bind]; discriminate);
      try discriminate.
    destruct (truthy (lines o)) eqn:Hl; cbn [negb andb].
    + destruct (existsb isinstance_list items) eqn:Hx.
      * intros _. now exists items.
      * intros H. exfalso.
        destruct (flat_lines lib o items EmptyString) as [t | e |] eqn:E;
          cbn [output_bind] in H; try discriminate H.
        injection H as H. subst e.
        exact (flat_lines_not_exn _ _ _ _ _ E).
    + destruct (json_dumps lib (dump_style_of o) (VList items)); discriminate.
  - intros (items & -> & Hl & Hx). cbn [create_json].
    now rewrite Hl, Hx.
  - intros e.
    destruct data as [| | | | | items | d | d |]; cbn [create_json];
      unfold dumps;
      try (destruct (json_dumps lib _ _); cbn [output_bind];
           try discriminate; intros H; injection H as <-; tauto);
      try discriminate.
    destruct (truthy (lines o)); cbn [negb andb].
    + destruct (existsb isinstance_list items).
      * intros H. injection H as <-. tauto.
      * destruct (flat_lines lib o items EmptyString) as [t | e' |] eqn:E;
          cbn [output_bind]; try discriminate.
        intros H. injection H as <-. right. left.
        exact (flat_lines_fails _ _ _ _ _ E).
    + destruct (json_dumps lib (dump_style_of o) (VList items));
        try discriminate. intros H. injection H as <-. tauto.
Qed.

Lemma flat_lines_skip_accessors (lib : library) (o : opts)
    (items : list value) (flat_list : string) :
  flat_lines lib o (filter (fun v => negb (hasattr_self v)) items) flat_list
  = flat_lines lib o items flat_list.
Proof.
  revert flat_list. induction items as [| entry items IH]; intros flat_list;
    [reflexivity |].
  cbn [filter].
  destruct entry; cbn [hasattr_self negb]; cbn [flat_lines];
    try (destruct (entry_line lib o _); cbn [output_bind];
         [apply IH | reflexivity | reflexivity]).
  cbn [entry_line output_bind]. rewrite append_empty_r. apply IH.
Qed.

Lemma includes_list_skip_accessors (items : list value) :
  existsb isinstance_list (filter (fun v => negb (hasattr_self v)) items)
  = existsb isinstance_list items.
Proof.
  induction items as [| entry items IH]; [reflexivity |].
  cbn [filter]. destruct entry; cbn [hasattr_self negb existsb isinstance_list];
    now rewrite IH.
Qed.

(** Under [-l] a bound accessor inside a list result (the list that
    [pyquery] returns without complaint) is passed over in silence: the text
    is the one of the list without these elements. *)
Theorem lines_mode_drops_accessors (lib : library) (o : opts)
    (items : list value) :
  truthy (lines o) = true ->
  create_json lib o (VList items)
  = create_json lib o
      (VList (filter (fun v => negb (hasattr_self v)) items)).
Proof.
  intros Hl. cbn [create_json]. rewrite Hl. cbn [negb andb].
  now rewrite includes_list_skip_accessors, flat_lines_skip_accessors.
Qed.

Lemma lines_mode_drops_accessors_witness :
  create_json demo_library (set_lines (VBool true) opts_unset)
    (VList [VInt 1; VMethod (VDict []) "toDict"; VInt 2])
  = create_json demo_library (set_lines (VBool true) opts_unset)
      (VList [VInt 1; VInt 2]).
Proof.
  apply (lines_mode_drops_accessors demo_library
           (set_lines (VBool true) opts_unset)
           [VInt 1; VMethod (VDict []) "toDict"; VInt 2]).
  reflexivity.
Defined.

(** * Properties of [create_schema] *)

Lemma appends_schema_line lib p v path : appends (schema_line lib p v path).
Proof.
  intros acc. unfold schema_line.
  destruct (dumps lib Plain v); cbn [fst snd]; now rewrite ?app_nil_r.
Qed.

Lemma appends_schema_items call item_path (l : list value) :
  Forall (fun item => forall path, appends (call item path)) l ->
  forall i, appends (schema_items call item_path l i).
Proof.
  induction 1 as [| item l Hitem _ IH]; intros i acc; cbn [schema_items].
  - cbn [fst snd]. now rewrite app_nil_r.
  - rewrite (Hitem (item_path i) acc).
    destruct (call item (item_path i) []) as [new [[] | e |]]; cbn [fst snd];
      try reflexivity.
    rewrite (IH (S i) (acc ++ new)), (IH (S i) new). cbn [fst snd].
    now rewrite app_assoc.
Qed.

Lemma appends_schema_entries call lib o p path (d : list (string * value)) :
  Forall (fun kv => forall path, appends (call (snd kv) path)) d ->
  Forall (fun kv => forall l, snd kv = VList l ->
                    Forall (fun item => forall path, appends (call item path)) l)
    d ->
  appends (schema_entries call lib o p path d).
Proof.
  intros Hd Hl. induction d as [| [k v] d IH]; intros acc;
    cbn [schema_entries].
  - cbn [fst snd]. now rewrite app_nil_r.
  - inversion Hd as [| ? ? Hv Hd']; subst. inversion Hl as [| ? ? Hvl Hl']; subst.
    cbn [snd] in Hv, Hvl.
    set (inner := fun acc : list string =>
           match v with
           | VList items =>
               schema_items call
                 (fun i => (path ++ "." ++ key_text p k ++ index_text p i)%string)
                 items 0 acc
           | VDict _ =>
               call v
                 (path ++ "."
                  ++ (if negb (truthy (mono o)) then key_text p k else k))%string
                 acc
           | VDotMap _ => (acc, Unknown)
           | _ => schema_line lib p v (path ++ "." ++ key_text p k)%string acc
           end).
    assert (Hin : appends inner).
    { unfold inner. destruct v; try apply appends_schema_line.
      - apply appends_schema_items. now apply Hvl.
      - apply Hv.
      - intros a. cbn [fst snd]. now rewrite app_nil_r. }
    change (match inner acc with
            | (schema_list', Out _) =>
                schema_entries call lib o p path d schema_list'
            | stopped => stopped
            end
            = (acc ++ fst (match inner [] with
                           | (schema_list', Out _) =>
                               schema_entries call lib o p path d schema_list'
                           | stopped => stopped
                           end),
               snd (match inner [] with
                    | (schema_list', Out _) =>
                        schema_entries call lib o p path d schema_list'
                    | stopped => stopped
                    end))).
    rewrite (Hin acc).
    destruct (inner []) as [new [[] | e |]]; cbn [fst snd]; try reflexivity.
    rewrite (IH Hd' Hl' (acc ++ new)), (IH Hd' Hl' new). cbn [fst snd].
    now rewrite app_assoc.
Qed.

Lemma create_schema_appends_items lib o colors (src : value) :
  (forall path, appends (create_schema lib o colors src path))
  /\ (forall l, src = VList l ->
        Forall (fun item =>
                  forall path, appends (create_schema lib o colors item path))
          l).
Proof.
  induction src as [| b | z | fm fe | s | l IH | d IH | d IH | self name IH]
    using value_deep_ind;
    (split; [| try discriminate]).
  1-5, 9-10:
    intros path acc; cbn [create_schema];
    destruct (schema_palette o colors) as [p | ex |]; cbn [fst snd];
    rewrite ?app_nil_r; try reflexivity; apply appends_schema_line.
  - intros path acc. cbn [create_schema].
    destruct (schema_palette o colors) as [p | ex |]; cbn [fst snd];
      rewrite ?app_nil_r; try reflexivity.
    apply appends_schema_items.
    apply (Forall_impl _ (fun v H => proj1 H) IH).
  - intros l' E. injection E as <-.
    apply (Forall_impl _ (fun v H => proj1 H) IH).
  - intros path acc. cbn [create_schema].
    destruct (schema_palette o colors) as [p | ex |]; cbn [fst snd];
      rewrite ?app_nil_r; try reflexivity.
    apply appends_schema_entries.
    + apply (Forall_impl _ (fun kv H => proj1 H) IH).
    + apply (Forall_impl _ (fun kv H => proj2 H) IH).
Qed.

(** [create_schema] only appends to [schema_list]: the lines already there
    stay, in place, and the lines added, like the way the call ends, do not
    depend on them.  A second call without emptying the list first therefore
    leaves the lines of both calls. *)
Theorem create_schema_only_appends (lib : library) (o : opts)
    (colors : list (string * (string * string))) (src : value) (path : string)
    (schema_list : list string) :
  create_schema lib o colors src path schema_list
  = (schema_list ++ fst (create_schema lib o colors src path []),
     snd (create_schema lib o colors src path [])).
Proof. apply (proj1 (create_schema_appends_items lib o colors src)). Qed.

Lemma schema_items_ext call call' item_path (l : list value) :
  Forall (same_calls call call') l ->
  forall i schema_list,
    schema_items call item_path l i schema_list
    = schema_items call' item_path l i schema_list.
Proof.
  induction 1 as [| item l Hitem _ IH]; intros i acc; cbn [schema_items];
    [reflexivity |].
  rewrite (Hitem (item_path i) acc).
  destruct (call' item (item_path i) acc) as [acc' [[] | ex |]];
    try reflexivity.
  apply IH.
Qed.

Lemma schema_entries_ext call call' lib o p path (d : list (string * value)) :
  Forall (fun kv => same_calls call call' (snd kv)) d ->
  Forall (fun kv => forall l, snd kv = VList l -> Forall (same_calls call call') l)
    d ->
  forall schema_list,
    schema_entries call lib o p path d schema_list
    = schema_entries call' lib o p path d schema_list.
Proof.
  intros Hd Hl. induction d as [| [k v] d IH]; intros acc;
    cbn [schema_entries]; [reflexivity |].
  inversion Hd as [| ? ? Hv Hd']; subst. inversion Hl as [| ? ? Hvl Hl']; subst.
  cbn [snd] in Hv, Hvl.
  destruct v as [| b | z | fm fe | s | l | d0 | d0 | self name];
    try (destruct (schema_line lib p _ _ acc) as [acc' [[] | ex |]];
         try reflexivity; now apply IH);
    try reflexivity.
  - rewrite (schema_items_ext call call' _ l (Hvl l eq_refl)).
    destruct (schema_items call' _ l 0 acc) as [acc' [[] | ex |]];
      try reflexivity.
    now apply IH.
  - rewrite (Hv _ acc).
    destruct (call' (VDict d0) _ acc) as [acc' [[] | ex |]]; try reflexivity.
    now apply IH.
Qed.

Lemma mono_palette (o : opts) (colors : list (string * (string * string))) :
  truthy (mono o) = true ->
  schema_palette o colors
  = Out (mkPalette EmptyString EmptyString EmptyString EmptyString EmptyString
           EmptyString EmptyString EmptyString).
Proof. intros H. unfold schema_palette. now rewrite H. Qed.

Lemma mono_schema_same_calls lib o colors colors' (src : value) :
  truthy (mono o) = true ->
  same_calls (create_schema lib o colors) (create_schema lib o colors') src
  /\ (forall l, src = VList l ->
        Forall (same_calls (create_schema lib o colors)
                  (create_schema lib o colors')) l).
Proof.
  intros Hm.
  induction src as [| b | z | fm fe | s | l IH | d IH | d IH | self name IH]
    using value_deep_ind;
    (split; [| try discriminate]).
  1-5, 9-10:
    intros path acc; cbn [create_schema]; now rewrite !(mono_palette _ _ Hm).
  - intros path acc. cbn [create_schema]. rewrite !(mono_palette _ _ Hm).
    apply schema_items_ext. apply (Forall_impl _ (fun v H => proj1 H) IH).
  - intros l' E. injection E as <-.
    apply (Forall_impl _ (fun v H => proj1 H) IH).
  - intros path acc. cbn [create_schema]. rewrite !(mono_palette _ _ Hm).
    apply schema_entries_ext.
    + apply (Forall_impl _ (fun kv H => proj1 H) IH).
    + apply (Forall_impl _ (fun kv H => proj2 H) IH).
Qed.

(** Under [-m] the schema does not depend on [JelloTheme.colors]: the theme
    is not read, so that a theme without the six keys, or an empty one, does
    not make the call fail. *)
Theorem mono_schema_ignores_theme (lib : library) (o : opts)
    (colors colors' : list (string * (string * string))) (src : value)
    (path : string) (schema_list : list string) :
  truthy (mono o) = true ->
  create_schema lib o colors src path schema_list
  = create_schema lib o colors' src path schema_list.
Proof.
  intros Hm. apply (proj1 (mono_schema_same_calls lib o colors colors' src Hm)).
Qed.

Lemma mono_schema_ignores_theme_witness :
  create_schema demo_library (set_mono (VBool true) opts_unset)
    [("key_name", ("ansired", "x"))]
    (VDict [("a", VList [VInt 1; VDict [("b", VNone)]])]) EmptyString []
  = create_schema demo_library (set_mono (VBool true) opts_unset) []
      (VDict [("a", VList [VInt 1; VDict [("b", VNone)]])]) EmptyString [].
Proof.
  apply (mono_schema_ignores_theme demo_library
           (set_mono (VBool true) opts_unset)
           [("key_name", ("ansired", "x"))] []
           (VDict [("a", VList [VInt 1; VDict [("b", VNone)]])])
           EmptyString []).
  reflexivity.
Defined.

Lemma schema_items_leaves call item_path (l : list value) :
  Forall (adds_leaves call) l ->
  forallb plain l = true ->
  forall i schema_list,
    exists new,
      schema_items call item_path l i schema_list = (schema_list ++ new, Out tt)
      /\ List.length new = list_sum (map leaves l).
Proof.
  induction 1 as [| item l Hitem _ IH]; intros Hp i acc; cbn [schema_items].
  - exists []. now rewrite app_nil_r.
  - cbn [forallb] in Hp. apply andb_prop in Hp as [Hi Hl].
    destruct (Hitem Hi (item_path i) acc) as (n1 & E1 & L1). rewrite E1.
    destruct (IH Hl (S i) (acc ++ n1)) as (n2 & E2 & L2). rewrite E2.
    exists (n1 ++ n2). split; [now rewrite app_assoc |].
    rewrite length_app, L1, L2. reflexivity.
Qed.

Lemma schema_line_one lib p (v : value) path schema_list :
  (forall x, scalar x = true -> exists text, json_dumps lib Plain x = Some text) ->
  scalar v = true ->
  exists new,
    schema_line lib p v path schema_list = (schema_list ++ new, Out tt)
    /\ List.length new = 1.
Proof.
  intros Hlib Hv. destruct (Hlib v Hv) as [text E].
  unfold schema_line, dumps. rewrite E. eexists. split; reflexivity.
Qed.

Lemma schema_entries_leaves call lib o p path (d : list (string * value)) :
  (forall x, scalar x = true -> exists text, json_dumps lib Plain x = Some text) ->
  Forall (fun kv => adds_leaves call (snd kv)) d ->
  Forall (fun kv => forall l, snd kv = VList l -> Forall (adds_leaves call) l) d ->
  forallb (fun kv => match kv with (_, x) => plain x end) d = true ->
  forall schema_list,
    exists new,
      schema_entries call lib o p path d schema_list
      = (schema_list ++ new, Out tt)
      /\ List.length new
         = list_sum (map (fun kv => match kv with (_, x) => leaves x end) d).
Proof.
  intros Hlib Hd Hl Hp. induction d as [| [k v] d IH]; intros acc;
    cbn [schema_entries].
  - exists []. now rewrite app_nil_r.
  - inversion Hd as [| ? ? Hv Hd']; subst. inversion Hl as [| ? ? Hvl Hl']; subst.
    cbn [snd] in Hv, Hvl. cbn [forallb] in Hp.
    apply andb_prop in Hp as [Hpv Hpd].
    assert (Hfirst : exists n1,
               match v with
               | VList items =>
                   schema_items call
                     (fun i =>
                        (path ++ "." ++ key_text p k ++ index_text p i)%string)
                     items 0 acc
               | VDict _ =>
                   call v
                     (path ++ "."
                      ++ (if negb (truthy (mono o)) then key_text p k else k))%string
                     acc
               | VDotMap _ => (acc, Unknown)
               | _ =>
                   schema_line lib p v (path ++ "." ++ key_text p k)%string acc
               end = (acc ++ n1, Out tt)
               /\ List.length n1 = leaves v).
    { destruct v as [| b | z | fm fe | s | l | d0 | d0 | self name];
        try discriminate Hpv;
        try (apply schema_line_one; [exact Hlib | reflexivity]).
      - cbn [leaves]. apply schema_items_leaves; [now apply Hvl | exact Hpv].
      - apply Hv. exact Hpv. }
    destruct Hfirst as (n1 & E1 & L1). rewrite E1.
    destruct (IH Hd' Hl' Hpd (acc ++ n1)) as (n2 & E2 & L2). rewrite E2.
    exists (n1 ++ n2). split; [now rewrite app_assoc |].
    rewrite length_app, L1, L2. reflexivity.
Qed.

(** The theme that [set_env_colors] assigns has the six keys that
    [create_schema] reads. *)
Lemma palette_of_theme (env_colors : option string) (o' o : opts)
    (colors : list (string * (string * string))) :
  snd (set_env_colors env_colors o') = Done colors ->
  exists p, schema_palette o colors = Out p.
Proof.
  unfold set_env_colors.
  destruct (env_color_list env_colors) as [color_list stderr]. cbn [snd].
  destruct (theme_color color_list 0 _ _) as [[n0 c0] | |]; try discriminate.
  destruct (theme_color color_list 1 _ _) as [[n1 c1] | |]; try discriminate.
  destruct (theme_color color_list 2 _ _) as [[n2 c2] | |]; try discriminate.
  destruct (theme_color color_list 3 _ _) as [[n3 c3] | |]; try discriminate.
  destruct (theme_color color_list 4 _ _) as [[n4 c4] | |]; try discriminate.
  destruct (theme_color color_list 5 _ _) as [[n5 c5] | |]; try discriminate.
  cbn [obind]. intros H. injection H as <-.
  unfold schema_palette. destruct (negb (truthy (mono o))); eexists; reflexivity.
Qed.

Lemma create_schema_leaves lib o colors p (src : value) :
  (forall x, scalar x = true -> exists text, json_dumps lib Plain x = Some text) ->
  schema_palette o colors = Out p ->
  adds_leaves (create_schema lib o colors) src
  /\ (forall l, src = VList l ->
        Forall (adds_leaves (create_schema lib o colors)) l).
Proof.
  intros Hlib Hp.
  induction src as [| b | z | fm fe | s | l IH | d IH | d IH | self name IH]
    using value_deep_ind;
    (split; [| try discriminate]).
  1-5:
    intros _ path acc; cbn [create_schema]; rewrite Hp;
    apply schema_line_one; [exact Hlib | reflexivity].
  4-5: intros Hplain; discriminate Hplain.
  - intros Hplain path acc. cbn [create_schema]. rewrite Hp. cbn [leaves].
    apply schema_items_leaves; [| exact Hplain].
    apply (Forall_impl _ (fun v H => proj1 H) IH).
  - intros l' E. injection E as <-.
    apply (Forall_impl _ (fun v H => proj1 H) IH).
  - intros Hplain path acc. cbn [create_schema]. rewrite Hp. cbn [leaves].
    apply schema_entries_leaves; try assumption.
    + apply (Forall_impl _ (fun kv H => proj1 H) IH).
    + apply (Forall_impl _ (fun kv H => proj2 H) IH).
Qed.

(** For a plain document, under [-m] or with the theme that
    [set_env_colors] has built, [create_schema] returns and adds exactly one
    line for each value that is neither a list nor a dict; an empty list or an
    empty dict, at any depth, leaves no line.  ([json.dumps] is assumed to
    write every scalar.) *)
Theorem schema_has_one_line_per_leaf (lib : library) (o : opts)
    (colors : list (string * (string * string))) (src : value) (path : string)
    (schema_list : list string) :
  plain src = true ->
  (forall x, scalar x = true -> exists text, json_dumps lib Plain x = Some text) ->
  (truthy (mono o) = true
   \/ exists env_colors o', snd (set_env_colors env_colors o') = Done colors) ->
  exists new,
    create_schema lib o colors src path schema_list
    = (schema_list ++ new, Out tt)
    /\ List.length new = leaves src.
Proof.
  intros Hplain Hlib Hcolors.
  assert (Hp : exists p, schema_palette o colors = Out p).
  { destruct Hcolors as [Hm | (env_colors & o' & Ht)].
    - eexists. now apply mono_palette.
    - exact (palette_of_theme _ _ _ _ Ht). }
  destruct Hp as [p Hp].
  exact (proj1 (create_schema_leaves lib o colors p src Hlib Hp) Hplain path
           schema_list).
Qed.

Lemma scalar_library_writes_scalars (x : value) :
  scalar x = true ->
  exists text, json_dumps scalar_library Plain x = Some text.
Proof.
  destruct x; try discriminate; intros _; eexists; reflexivity.
Qed.

Lemma schema_has_one_line_per_leaf_witness :
  exists new,
    create_schema scalar_library (set_mono (VBool true) opts_unset) []
      (VDict [("a", VInt 17);
              ("b", VDict [("c", VList [VBool true; VDict [("d", VStr "x")];
                                        VList []])]);
              ("e", VDict [])])
      EmptyString []
    = ([] ++ new, Out tt)
    /\ List.length new = 3.
Proof.
  apply (schema_has_one_line_per_leaf scalar_library
           (set_mono (VBool true) opts_unset) []
           (VDict [("a", VInt 17);
                   ("b", VDict [("c", VList [VBool true; VDict [("d", VStr "x")];
                                             VList []])]);
                   ("e", VDict [])])
           EmptyString []).
  - reflexivity.
  - exact scalar_library_writes_scalars.
  - left. reflexivity.
Defined.

(** The schema of that document, line by line. *)
Example schema_of_a_document :
  fst (create_schema scalar_library (set_mono (VBool true) opts_unset) []
         (VDict [("a", VInt 17);
                 ("b", VDict [("c", VList [VBool true; VDict [("d", VStr "x")];
                                           VList []])]);
                 ("e", VDict [])])
         EmptyString [])
  = [".a = 17;"; ".b.c[0] = true;"; (".b.c[1].d = " ++ quote ++ "x" ++ quote ++ ";")%string].
Proof. reflexivity. Qed.

(** The same scalar under the default theme, with its colours. *)
Example schema_line_in_colour :
  exists colors,
    snd (set_env_colors None opts_unset) = Done colors
    /\ fst (create_schema scalar_library opts_unset colors
              (VDict [("a", VInt 17)]) EmptyString [])
       = [("." ++ ESC ++ "[1m" ++ ESC ++ "[34m" ++ "a" ++ ESC ++ "[0m"
           ++ " = " ++ ESC ++ "[35m" ++ "17" ++ ESC ++ "[0m" ++ ";")%string].
Proof. eexists. split; reflexivity. Qed.

Lemma all_digits_no_dot (val : string) :
  all_digits val = true -> drop_first_dot val = val.
Proof.
  induction val as [| c val IH]; cbn [all_digits drop_first_dot];
    [reflexivity |].
  intros H. apply andb_prop in H as [Hc Hv].
  destruct (Ascii.eqb c "."%char) eqn:E.
  - apply Ascii.eqb_eq in E. subst c. discriminate Hc.
  - now rewrite IH.
Qed.

(** The colour of a scalar in the schema (lines 150-155 and 161-166): a text
    made of digits only is printed in the number colour, but a text that
    starts with a minus sign is printed in the string colour: a negative
    number is not recognised as a number. *)
Theorem negative_number_has_string_colour (p : palette) (val : string) :
  (val <> EmptyString -> all_digits val = true ->
   value_text p val = (CNUMBER p ++ val ++ CEND p)%string)
  /\ value_text p (String "-"%char val)
     = (CSTRING p ++ String "-"%char val ++ CEND p)%string.
Proof.
  split.
  - intros Hne Hd. unfold value_text.
    assert (Hk : String.eqb val "true" || String.eqb val "false"
                 || String.eqb val "null" = false).
    { destruct val as [| c val']; [now elim Hne |].
      cbn [all_digits] in Hd. apply andb_prop in Hd as [Hc _].
      cbn [String.eqb].
      destruct (Ascii.eqb c "t"%char) eqn:Et;
        [apply Ascii.eqb_eq in Et; subst c; discriminate Hc |].
      destruct (Ascii.eqb c "f"%char) eqn:Ef;
        [apply Ascii.eqb_eq in Ef; subst c; discriminate Hc |].
      destruct (Ascii.eqb c "n"%char) eqn:En;
        [apply Ascii.eqb_eq in En; subst c; discriminate Hc |].
      reflexivity. }
    rewrite Hk, (all_digits_no_dot _ Hd). unfold isdigit.
    apply String.eqb_neq in Hne. now rewrite Hne, Hd.
  - reflexivity.
Qed.
